(** * Matchmaking and room coordination of the turing-game server

    A shallow embedding of [server/index.js]: the process-wide maps
    [waitingPlayers], [rooms], [roomTimers] and [turnTimers], the per-socket
    [socket.roomId] property, the room objects (shared by reference between
    the [rooms] map and the room-countdown closure), the Node timer queue
    ([setInterval] / [setTimeout] handles) and the log of observable effects
    (emitted socket events, timer operations, database calls).

    Each socket.io handler is a computation in a small state monad.  Values
    the handlers draw from the outside world ([Math.random], [Date], the
    database service) are parameters of the handler; an [await]ed database
    call is modelled by its outcome, the handler then running to completion. *)

From Stdlib Require Import String List Bool ZArith Lia.
Import ListNotations.
Open Scope string_scope.
Open Scope list_scope.

(** ** JavaScript [Map]s as insertion-ordered association lists *)

Class KeyEq (K : Type) := {
  keq : K -> K -> bool;
  keq_spec : forall a b, reflect (a = b) (keq a b)
}.

#[global] Instance KeyEq_string : KeyEq string :=
  { keq := String.eqb; keq_spec := String.eqb_spec }.
#[global] Instance KeyEq_nat : KeyEq nat :=
  { keq := Nat.eqb; keq_spec := Nat.eqb_spec }.

Section JsMap.
Context {K V : Type} `{KeyEq K}.

(** [m.get(k)] *)
Fixpoint mget (k : K) (m : list (K * V)) : option V :=
  match m with
  | [] => None
  | (k', v) :: r => if keq k k' then Some v else mget k r
  end.

(** [m.has(k)] *)
Definition mhas (k : K) (m : list (K * V)) : bool :=
  match mget k m with Some _ => true | None => false end.

(** [m.set(k, v)]: an existing key keeps its place, a new key goes last. *)
Fixpoint mset (k : K) (v : V) (m : list (K * V)) : list (K * V) :=
  match m with
  | [] => [(k, v)]
  | (k', v') :: r => if keq k k' then (k, v) :: r else (k', v') :: mset k v r
  end.

(** [m.delete(k)] *)
Definition mdel (k : K) (m : list (K * V)) : list (K * V) :=
  filter (fun e => negb (keq k (fst e))) m.
End JsMap.

(** JavaScript truthiness of a value that is a string or [undefined]. *)
Definition js_truthy (o : option string) : option string :=
  match o with
  | Some s => if String.eqb s "" then None else Some s
  | None => None
  end.

(** ** Constants *)

Definition ROOM_TIME_LIMIT : Z := 120000.
Definition TURN_TIME_LIMIT : Z := 900000.

(** ** Data *)

(** The room object literal built in [handleMatchmaking].  [roomTimer] is
    read by the RETIRE handler but absent from the literal, so it starts out
    [undefined] ([None]); nothing ever assigns it a timer. *)
Record Room := mkRoom {
  players : list string;
  messages : list (string * string);      (* {text, timestamp} *)
  isFirstTurn : bool;
  playerTypes : list (string * bool);
  isActive : bool;
  startTime : Z;
  currentTurn : option string;
  turnTimer : option nat;
  roomTimer : option nat
}.

Definition set_isActive (b : bool) (r : Room) : Room :=
  mkRoom (players r) (messages r) (isFirstTurn r) (playerTypes r) b
         (startTime r) (currentTurn r) (turnTimer r) (roomTimer r).

Definition push_message (m : string * string) (r : Room) : Room :=
  mkRoom (players r) (messages r ++ [m]) (isFirstTurn r) (playerTypes r)
         (isActive r) (startTime r) (currentTurn r) (turnTimer r) (roomTimer r).

Definition set_roomTimer (t : option nat) (r : Room) : Room :=
  mkRoom (players r) (messages r) (isFirstTurn r) (playerTypes r)
         (isActive r) (startTime r) (currentTurn r) (turnTimer r) t.

(** Outgoing socket events, with the payload fields of the source. *)
Inductive Event :=
| MATCH_FOUND (roomId conversationId : string) (isAI isFirstTurn : bool) (timeLeft : Z)
| WAITING_FOR_PLAYER (message : string)
| RECEIVE_MESSAGE (text timestamp : string) (isUser : bool)
| YOUR_TURN (canSendMessage : bool) (timeLeft : option Z) (canGuess : option bool)
| OPPONENT_TYPING (isTyping : bool)
| GUESS_RESULT (isCorrect opponentGuess : bool) (actualType : string)
| GAME_OVER (message : string)
| OPPONENT_DISCONNECTED (message : string) (isAI : option bool)
| TIME_UPDATE (timeLeft : Z) (isLowTime : bool)
| ROOM_TIME_UP (message : string)
| TURN_TIME_UPDATE (timeLeft : Z) (isLowTime : bool)
| TURN_TIME_UP
| FORFEIT_RESULT (message : string)
| OPPONENT_FORFEIT
| ERROR (message : string).

(** The closures handed to [setInterval] / [setTimeout]. *)
Inductive Task :=
| RoomTick (room : nat) (roomId : string) (timeLeft : Z)
    (* startRoomCountdown: captures the room object and its own timeLeft *)
| TurnTick (roomId playerId : string) (timeLeft : Z)
    (* startTurnCountdown *)
| RemoveRoomOf (socketId : string)
    (* RETIRE / handleDisconnect: rooms.delete(socket.roomId), read when it fires *)
| RemoveRoom (roomId : string).
    (* room time-up: rooms.delete(roomId) *)

(** Result row of [dbService.submitGuess]. *)
Record GuessRow := mkGuessRow {
  player1_id : string;
  player1_is_ai : bool;
  player2_is_ai : bool
}.

(** Observable effects, in the order they happen. *)
Inductive Action :=
| Emit (target : string) (e : Event)
| SetTimer (handle : nat) (ms : Z) (t : Task)
| ClearTimer (handle : nat)
| DbCreateConversation (roomId p1 p2 : string) (p1IsAI p2IsAI : bool)
| DbCreateMessage (roomId : string) (isPlayer1 : bool) (text senderId : string)
| DbSubmitGuess (roomId playerId : string) (isAI : bool).

Record St := mkSt {
  waitingPlayers : list (string * bool);   (* socket.id -> isAI *)
  rooms : list (string * nat);             (* roomId -> room object *)
  heap : list (nat * Room);                (* room objects *)
  nextLoc : nat;
  socketRoom : list (string * string);     (* socket.roomId *)
  roomTimers : list (string * nat);
  turnTimers : list (string * nat);
  timers : list (nat * Task);              (* live Node timers *)
  nextHandle : nat;
  trace : list Action
}.

Definition init : St := mkSt [] [] [] 0 [] [] [] [] 0 [].

(** ** The state monad of the handlers *)

Definition M (A : Type) := St -> A * St.

Definition ret {A} (a : A) : M A := fun s => (a, s).
Definition bind {A B} (m : M A) (k : A -> M B) : M B :=
  fun s => let (a, s1) := m s in k a s1.

Notation "x <- m ;; k" := (bind m (fun x => k))
  (at level 61, m at next level, right associativity).
Notation "m ;;; k" := (bind m (fun _ : unit => k))
  (at level 61, right associativity).

Definition gets {A} (f : St -> A) : M A := fun s => (f s, s).
Definition modify (f : St -> St) : M unit := fun s => (tt, f s).

Definition with_wp (w : list (string * bool)) (s : St) : St :=
  mkSt w (rooms s) (heap s) (nextLoc s) (socketRoom s) (roomTimers s)
       (turnTimers s) (timers s) (nextHandle s) (trace s).
Definition with_rooms (r : list (string * nat)) (s : St) : St :=
  mkSt (waitingPlayers s) r (heap s) (nextLoc s) (socketRoom s) (roomTimers s)
       (turnTimers s) (timers s) (nextHandle s) (trace s).
Definition with_heap (h : list (nat * Room)) (n : nat) (s : St) : St :=
  mkSt (waitingPlayers s) (rooms s) h n (socketRoom s) (roomTimers s)
       (turnTimers s) (timers s) (nextHandle s) (trace s).
Definition with_socketRoom (r : list (string * string)) (s : St) : St :=
  mkSt (waitingPlayers s) (rooms s) (heap s) (nextLoc s) r (roomTimers s)
       (turnTimers s) (timers s) (nextHandle s) (trace s).
Definition with_roomTimers (r : list (string * nat)) (s : St) : St :=
  mkSt (waitingPlayers s) (rooms s) (heap s) (nextLoc s) (socketRoom s) r
       (turnTimers s) (timers s) (nextHandle s) (trace s).
Definition with_turnTimers (r : list (string * nat)) (s : St) : St :=
  mkSt (waitingPlayers s) (rooms s) (heap s) (nextLoc s) (socketRoom s)
       (roomTimers s) r (timers s) (nextHandle s) (trace s).
Definition with_timers (t : list (nat * Task)) (n : nat) (s : St) : St :=
  mkSt (waitingPlayers s) (rooms s) (heap s) (nextLoc s) (socketRoom s)
       (roomTimers s) (turnTimers s) t n (trace s).
Definition with_trace (t : list Action) (s : St) : St :=
  mkSt (waitingPlayers s) (rooms s) (heap s) (nextLoc s) (socketRoom s)
       (roomTimers s) (turnTimers s) (timers s) (nextHandle s) t.

Definition log (a : Action) : M unit :=
  modify (fun s => with_trace (trace s ++ [a]) s).

(** [socket.emit(e)] / [io.to(target).emit(e)] *)
Definition emit (target : string) (e : Event) : M unit := log (Emit target e).

Definition wp_set k v : M unit :=
  modify (fun s => with_wp (mset k v (waitingPlayers s)) s).
Definition wp_delete k : M unit :=
  modify (fun s => with_wp (mdel k (waitingPlayers s)) s).
Definition rooms_set k v : M unit :=
  modify (fun s => with_rooms (mset k v (rooms s)) s).
Definition rooms_delete k : M unit :=
  modify (fun s => with_rooms (mdel k (rooms s)) s).
Definition socketRoom_set k v : M unit :=
  modify (fun s => with_socketRoom (mset k v (socketRoom s)) s).
Definition roomTimers_set k v : M unit :=
  modify (fun s => with_roomTimers (mset k v (roomTimers s)) s).
Definition roomTimers_delete k : M unit :=
  modify (fun s => with_roomTimers (mdel k (roomTimers s)) s).
Definition turnTimers_set k v : M unit :=
  modify (fun s => with_turnTimers (mset k v (turnTimers s)) s).
Definition turnTimers_delete k : M unit :=
  modify (fun s => with_turnTimers (mdel k (turnTimers s)) s).

(** A new room object. *)
Definition alloc_room (r : Room) : M nat :=
  fun s => (nextLoc s, with_heap ((nextLoc s, r) :: heap s) (S (nextLoc s)) s).

(** Mutation of a room object through any reference to it. *)
Definition room_update (l : nat) (f : Room -> Room) : M unit :=
  modify (fun s => match mget l (heap s) with
                   | Some r => with_heap (mset l (f r) (heap s)) (nextLoc s) s
                   | None => s
                   end).

(** [setInterval(f, ms)] / [setTimeout(f, ms)]: a fresh handle. *)
Definition setTimer (ms : Z) (t : Task) : M nat :=
  fun s => let h := nextHandle s in
           (h, with_trace (trace s ++ [SetTimer h ms t])
                 (with_timers ((h, t) :: timers s) (S h) s)).

(** [clearInterval(h)] / [clearTimeout(h)]: both cancel any Node timer;
    an unknown or finished handle is ignored. *)
Definition clearTimer (h : nat) : M unit :=
  modify (fun s => with_trace (trace s ++ [ClearTimer h])
                     (with_timers (mdel h (timers s)) (nextHandle s) s)).

(** An interval closure updating its own captured [timeLeft]. *)
Definition update_task (h : nat) (t : Task) : M unit :=
  modify (fun s => with_timers (mset h t (timers s)) (nextHandle s) s).

(** A [setTimeout] timer is gone once it has fired. *)
Definition drop_task (h : nat) : M unit :=
  modify (fun s => with_timers (mdel h (timers s)) (nextHandle s) s).

(** [rooms.get(roomId)], dereferenced. *)
Definition room_get (rid : string) : M (option (nat * Room)) :=
  gets (fun s => match mget rid (rooms s) with
                 | Some l => match mget l (heap s) with
                             | Some r => Some (l, r)
                             | None => None
                             end
                 | None => None
                 end).

(** [socket.roomId && rooms.has(socket.roomId)], then [rooms.get(socket.roomId)]. *)
Definition room_of_socket (sid : string) : M (option (string * nat * Room)) :=
  gets (fun s => match js_truthy (mget sid (socketRoom s)) with
                 | Some rid =>
                     match mget rid (rooms s) with
                     | Some l => match mget l (heap s) with
                                 | Some r => Some (rid, l, r)
                                 | None => None
                                 end
                     | None => None
                     end
                 | None => None
                 end).

(** [room.players.find(p => p !== id)] *)
Definition other_player (r : Room) (sid : string) : option string :=
  find (fun p => negb (String.eqb p sid)) (players r).

(** [if (x) { k(x) }] on a string-or-undefined value. *)
Definition when_truthy (o : option string) (k : string -> M unit) : M unit :=
  match js_truthy o with Some x => k x | None => ret tt end.

Definition forEach (l : list string) (k : string -> M unit) : M unit :=
  fold_right (fun p rest => k p ;;; rest) (ret tt) l.

(** ** Timers *)

(** [startRoomCountdown(roomId)] *)
Definition startRoomCountdown (rid : string) : M unit :=
  r <- room_get rid ;;
  match r with
  | None => ret tt
  | Some (l, _) =>
      rt <- gets roomTimers ;;
      (match mget rid rt with Some h => clearTimer h | None => ret tt end) ;;;
      h <- setTimer 1000 (RoomTick l rid (ROOM_TIME_LIMIT / 1000)) ;;
      roomTimers_set rid h
  end.

(** [startTurnCountdown(roomId, playerId)] *)
Definition startTurnCountdown (rid pid : string) : M unit :=
  r <- room_get rid ;;
  match r with
  | None => ret tt
  | Some _ =>
      tt0 <- gets turnTimers ;;
      (match mget pid tt0 with Some h => clearTimer h | None => ret tt end) ;;;
      h <- setTimer 1000 (TurnTick rid pid (TURN_TIME_LIMIT / 1000)) ;;
      turnTimers_set pid h
  end.

(** [handleForfeit(roomId, playerId)] *)
Definition handleForfeit (rid pid : string) : M unit :=
  r <- room_get rid ;;
  match r with
  | None => ret tt
  | Some (_, room) =>
      rt <- gets roomTimers ;;
      (match mget rid rt with
       | Some h => clearTimer h ;;; roomTimers_delete rid
       | None => ret tt
       end) ;;;
      emit pid (FORFEIT_RESULT "You've lost your turn due to time running out.") ;;;
      when_truthy (other_player room pid) (fun o => emit o OPPONENT_FORFEIT)
  end.

(** One run of the callback of timer [h] (a one-second interval tick, or a
    five-second timeout). *)
Definition fire (h : nat) : M unit :=
  t <- gets (fun s => mget h (timers s)) ;;
  match t with
  | None => ret tt
  | Some (RoomTick l rid tl) =>
      r <- gets (fun s => mget l (heap s)) ;;
      match r with
      | None => ret tt
      | Some room =>
          if negb (isActive room) then
            clearTimer h ;;; roomTimers_delete rid
          else
            let tl' := (tl - 1)%Z in
            update_task h (RoomTick l rid tl') ;;;
            forEach (players room)
              (fun p => emit p (TIME_UPDATE tl' (tl' <=? 30)%Z)) ;;;
            if (tl' <=? 0)%Z then
              clearTimer h ;;;
              roomTimers_delete rid ;;;
              forEach (players room)
                (fun p => emit p (ROOM_TIME_UP "Time's up! Make your guess about your opponent.")) ;;;
              room_update l (set_isActive false) ;;;
              _ <- setTimer 5000 (RemoveRoom rid) ;;
              ret tt
            else ret tt
      end
  | Some (TurnTick rid pid tl) =>
      let tl' := (tl - 1)%Z in
      update_task h (TurnTick rid pid tl') ;;;
      emit pid (TURN_TIME_UPDATE tl' (tl' <=? 5)%Z) ;;;
      if (tl' <=? 0)%Z then
        clearTimer h ;;;
        turnTimers_delete pid ;;;
        emit pid TURN_TIME_UP ;;;
        handleForfeit rid pid
      else ret tt
  | Some (RemoveRoomOf sid) =>
      drop_task h ;;;
      rid <- gets (fun s => mget sid (socketRoom s)) ;;
      match rid with Some rid => rooms_delete rid | None => ret tt end
  | Some (RemoveRoom rid) =>
      drop_task h ;;;
      rooms_delete rid
  end.

(** ** Socket handlers *)

(** [handleMatchmaking(socket)].  [coinAI] and [coinFirst] are the two
    [Math.random() < 0.5] draws, [newRoomId] the result of
    [generateRoomId()], [now] of [Date.now()], and [conversation] the
    [conversation_id] returned by [dbService.createConversation] ([None]
    when the call rejects or returns no row). *)
Definition handleMatchmaking (sid : string) (coinAI : bool) (newRoomId : string)
    (coinFirst : bool) (now : Z) (conversation : option string) : M unit :=
  inroom <- room_of_socket sid ;;
  match inroom with
  | Some _ => ret tt
  | None =>
      w <- gets waitingPlayers ;;
      if mhas sid w then ret tt
      else
        wp_set sid coinAI ;;;
        w <- gets waitingPlayers ;;
        if (2 <=? length w)%nat then
          match firstn 2 w with
          | [(p0, a0); (p1, a1)] =>
              log (DbCreateConversation newRoomId p0 p1 a0 a1) ;;;
              match js_truthy conversation with
              | None =>
                  (* throw new Error(...), caught by the catch block *)
                  emit sid (ERROR "Failed to join matchmaking") ;;;
                  wp_delete sid
              | Some cid =>
                  l <- alloc_room (mkRoom [p0; p1] [] coinFirst [(p0, a0); (p1, a1)]
                                          true now None None None) ;;
                  rooms_set newRoomId l ;;;
                  forEach [p0; p1]
                    (fun p => socketRoom_set p newRoomId ;;; wp_delete p) ;;;
                  emit p0 (MATCH_FOUND newRoomId cid a0 coinFirst ROOM_TIME_LIMIT) ;;;
                  emit p1 (MATCH_FOUND newRoomId cid a1 (negb coinFirst) ROOM_TIME_LIMIT) ;;;
                  startRoomCountdown newRoomId
              end
          | _ => ret tt
          end
        else
          emit sid (WAITING_FOR_PLAYER "Waiting for another player to join...")
  end.

(** [CANCEL_MATCHMAKING] *)
Definition cancelMatchmaking (sid : string) : M unit := wp_delete sid.

(** [SEND_MESSAGE]: [timestamp] is [new Date().toISOString()], [dbOk] whether
    [dbService.createMessage] resolved. *)
Definition sendMessage (sid text timestamp : string) (dbOk : bool) : M unit :=
  rr <- room_of_socket sid ;;
  match rr with
  | None => emit sid (ERROR "Invalid room")
  | Some (rid, l, room) =>
      let sender := find (fun p => String.eqb p sid) (players room) in
      match js_truthy sender, js_truthy (other_player room sid) with
      | Some _, Some other =>
          let isPlayer1 :=
            match players room with p0 :: _ => String.eqb p0 sid | [] => false end in
          log (DbCreateMessage rid isPlayer1 text sid) ;;;
          if dbOk then
            room_update l (push_message (text, timestamp)) ;;;
            emit sid (RECEIVE_MESSAGE text timestamp true) ;;;
            emit other (RECEIVE_MESSAGE text timestamp false) ;;;
            emit other (YOUR_TURN true (Some TURN_TIME_LIMIT) None) ;;;
            startTurnCountdown rid other
          else emit sid (ERROR "Failed to send message")
      | _, _ => emit sid (ERROR "Invalid sender or receiver")
      end
  end.

(** [TYPING_STATUS] *)
Definition typingStatus (sid : string) (isTyping : bool) : M unit :=
  rr <- room_of_socket sid ;;
  match rr with
  | None => ret tt
  | Some (_, _, room) =>
      when_truthy (other_player room sid) (fun o => emit o (OPPONENT_TYPING isTyping))
  end.

(** [MAKE_GUESS]: [result] is the row of [dbService.submitGuess], [None]
    when the call rejects. *)
Definition makeGuess (sid : string) (isAI : bool) (result : option GuessRow) : M unit :=
  rr <- room_of_socket sid ;;
  match rr with
  | None => emit sid (ERROR "Invalid room")
  | Some (rid, _, room) =>
      rt <- gets roomTimers ;;
      (match mget rid rt with
       | Some h => clearTimer h ;;; roomTimers_delete rid
       | None => ret tt
       end) ;;;
      log (DbSubmitGuess rid sid isAI) ;;;
      match result with
      | None => emit sid (ERROR "Failed to submit guess")
      | Some res =>
          let isCorrect :=
            if String.eqb sid (player1_id res)
            then Bool.eqb isAI (player2_is_ai res)
            else Bool.eqb isAI (player1_is_ai res) in
          let actualType :=
            if String.eqb sid (player1_id res)
            then (if player2_is_ai res then "AI" else "Human")
            else (if player1_is_ai res then "AI" else "Human") in
          emit sid (GUESS_RESULT isCorrect isAI actualType) ;;;
          when_truthy (other_player room sid)
            (fun o => emit o (GAME_OVER "Your opponent has made their guess. The game is over."))
      end
  end.

(** [RETIRE] *)
Definition retire (sid : string) : M unit :=
  rr <- room_of_socket sid ;;
  match rr with
  | None => ret tt
  | Some (_, l, room) =>
      when_truthy (other_player room sid) (fun o =>
        emit o (OPPONENT_DISCONNECTED "Your opponent has retired from the game."
                  (mget sid (playerTypes room))) ;;;
        (match roomTimer room with
         | Some h => clearTimer h ;;; room_update l (set_roomTimer None)
         | None => ret tt
         end) ;;;
        emit o (YOUR_TURN false None (Some true))) ;;;
      room_update l (set_isActive false) ;;;
      _ <- setTimer 5000 (RemoveRoomOf sid) ;;
      ret tt
  end.

(** [handleDisconnect(socket)] *)
Definition handleDisconnect (sid : string) : M unit :=
  wp_delete sid ;;;
  rr <- room_of_socket sid ;;
  match rr with
  | None => ret tt
  | Some (rid, l, room) =>
      rt <- gets roomTimers ;;
      (match mget rid rt with
       | Some h => clearTimer h ;;; roomTimers_delete rid
       | None => ret tt
       end) ;;;
      when_truthy (other_player room sid) (fun o =>
        emit o (OPPONENT_DISCONNECTED "Your opponent has disconnected."
                  (mget sid (playerTypes room))) ;;;
        emit o (YOUR_TURN false None (Some true))) ;;;
      room_update l (set_isActive false) ;;;
      _ <- setTimer 5000 (RemoveRoomOf sid) ;;
      ret tt
  end.

(** Everything that can happen to the server: an inbound socket event, or a
    timer callback. *)
Inductive Op :=
| OpJoin (sid : string) (coinAI : bool) (newRoomId : string) (coinFirst : bool)
         (now : Z) (conversation : option string)
| OpCancel (sid : string)
| OpSend (sid text timestamp : string) (dbOk : bool)
| OpTyping (sid : string) (isTyping : bool)
| OpGuess (sid : string) (isAI : bool) (result : option GuessRow)
| OpRetire (sid : string)
| OpDisconnect (sid : string)
| OpFire (h : nat).

Definition step (op : Op) : M unit :=
  match op with
  | OpJoin sid c r f n conv => handleMatchmaking sid c r f n conv
  | OpCancel sid => cancelMatchmaking sid
  | OpSend sid t ts ok => sendMessage sid t ts ok
  | OpTyping sid b => typingStatus sid b
  | OpGuess sid b res => makeGuess sid b res
  | OpRetire sid => retire sid
  | OpDisconnect sid => handleDisconnect sid
  | OpFire h => fire h
  end.

Definition run (m : M unit) (s : St) : St := snd (m s).

Fixpoint run_ops (ops : list Op) (s : St) : St :=
  match ops with
  | [] => s
  | op :: rest => run_ops rest (run (step op) s)
  end.

(** ** A concrete run: A waits, B joins and is paired with A in room "r1". *)

Definition s_waitA : St := run_ops [OpJoin "A" true "r0" true 0 None] init.
Definition s_match : St :=
  run_ops [OpJoin "B" false "r1" true 1 (Some "c1")] s_waitA.

(** ** Continuing: A relays a message (B's turn timer starts), A disconnects,
    and the five-second removal of A's room fires; B's turn timer is left. *)

Definition s_gone : St :=
  run_ops [OpSend "A" "hi" "t0" true; OpDisconnect "A"; OpFire 2] s_match.

(** ** The room countdown of "r1" after 119 of its 120 ticks. *)

Definition s_last : St := run_ops (repeat (OpFire 0) 119) s_match.

(** ** B's turn countdown (handle 1, started by A's message) after 899 of its
    900 ticks; room "r1" is still registered. *)

Definition s_turn_last : St :=
  run_ops (OpSend "A" "hi" "t0" true :: repeat (OpFire 1) 899) s_match.

(** The effects a run added to the log. *)
Definition new_actions (s s' : St) : list Action := skipn (length (trace s)) (trace s').

(** The room object registered under [rid]. *)
Definition room_at (rid : string) (s : St) : option Room :=
  match mget rid (rooms s) with Some l => mget l (heap s) | None => None end.

(** ** Concrete runs *)

(** Well-formedness of the timer bookkeeping: live handles are below the
    handle counter; the [roomTimers] entries never name a turn countdown;
    each live turn countdown is the one registered for its player in
    [turnTimers], and a registered live turn timer counts down for that
    player; no room object carries a [roomTimer]. *)
Record TimerInv (s : St) : Prop := {
  inv_fresh : forall k t, mget k (timers s) = Some t -> (k < nextHandle s)%nat;
  inv_room_not_turn : forall r k rid q tl,
    mget r (roomTimers s) = Some k -> mget k (timers s) <> Some (TurnTick rid q tl);
  inv_turn_registered : forall k rid q tl,
    mget k (timers s) = Some (TurnTick rid q tl) -> mget q (turnTimers s) = Some k;
  inv_turn_owner : forall q k t,
    mget q (turnTimers s) = Some k -> mget k (timers s) = Some t ->
    exists rid tl, t = TurnTick rid q tl;
  inv_no_roomTimer : forall l r, mget l (heap s) = Some r -> roomTimer r = None
}.

(** [TimerInv] together with the freshness of the handles kept in
    [roomTimers] and [turnTimers]: the form of the invariant that every
    operation preserves. *)
Record TimerWF (s : St) : Prop := {
  wf_inv : TimerInv s;
  wf_roomTimers_fresh : forall r k, mget r (roomTimers s) = Some k -> (k < nextHandle s)%nat;
  wf_turnTimers_fresh : forall q k, mget q (turnTimers s) = Some k -> (k < nextHandle s)%nat
}.

(** A guess row naming A as player 1, both players flagged AI. *)
Definition row_A : GuessRow := mkGuessRow "A" true true.

(** * Properties *)

(** ** Proof support *)

Lemma skipn_trace (t x : list Action) : skipn (length t) (t ++ x) = x.
Proof. induction t; simpl; auto. Qed.

Section JsMapFacts.
Context {K V : Type} `{KeyEq K}.

Lemma keq_refl (k : K) : keq k k = true.
Proof. destruct (keq_spec k k); congruence. Qed.

Lemma mget_mdel_same (k : K) (m : list (K * V)) : mget k (mdel k m) = None.
Proof.
  induction m as [|[k' v] r IH]; cbn; auto.
  destruct (keq_spec k k') as [->|Hne]; cbn; auto.
  destruct (keq_spec k k'); [contradiction|auto].
Qed.

Lemma mget_mdel_other (k k' : K) (m : list (K * V)) :
  k <> k' -> mget k (mdel k' m) = mget k m.
Proof.
  intro Hne. induction m as [|[k'' v] r IH]; cbn; auto.
  destruct (keq_spec k' k'') as [<-|Hne']; cbn.
  - destruct (keq_spec k k'); [contradiction|auto].
  - destruct (keq_spec k k''); auto.
Qed.

Lemma mdel_absent (k : K) (m : list (K * V)) : mget k m = None -> mdel k m = m.
Proof.
  unfold mdel. induction m as [|[k' v] r IH]; cbn; auto.
  destruct (keq_spec k k') as [->|Hne]; [discriminate|].
  intro Hr. cbn. rewrite IH by exact Hr. reflexivity.
Qed.

Lemma mget_mset_same (k : K) (v : V) (m : list (K * V)) : mget k (mset k v m) = Some v.
Proof.
  induction m as [|[k' v'] r IH]; cbn; [rewrite keq_refl; auto|].
  destruct (keq_spec k k'); cbn; rewrite ?keq_refl; auto.
  destruct (keq_spec k k'); [contradiction|auto].
Qed.

Lemma mget_mset_other (k k' : K) (v : V) (m : list (K * V)) :
  k <> k' -> mget k (mset k' v m) = mget k m.
Proof.
  intro Hne. induction m as [|[k'' v'] r IH]; cbn.
  - destruct (keq_spec k k'); [contradiction|auto].
  - destruct (keq_spec k' k'') as [<-|Hne']; cbn.
    + destruct (keq_spec k k'); [contradiction|auto].
    + destruct (keq_spec k k''); auto.
Qed.
End JsMapFacts.

Lemma js_truthy_some (x : string) : x <> "" -> js_truthy (Some x) = Some x.
Proof. intro H. unfold js_truthy. destruct (String.eqb_spec x ""); congruence. Qed.

(** Run the monadic code of the handlers on a state given field by field. *)
Ltac unfold_m :=
  cbv beta iota zeta delta [run bind gets modify ret log emit wp_set wp_delete rooms_set
    rooms_delete socketRoom_set roomTimers_set roomTimers_delete turnTimers_set
    turnTimers_delete alloc_room room_update setTimer clearTimer update_task
    drop_task room_get room_of_socket when_truthy forEach
    with_wp with_rooms with_heap with_socketRoom with_roomTimers with_turnTimers
    with_timers with_trace
    waitingPlayers rooms heap nextLoc socketRoom roomTimers turnTimers timers
    nextHandle trace
    makeGuess sendMessage retire handleDisconnect handleMatchmaking fire step
    startRoomCountdown startTurnCountdown handleForfeit cancelMatchmaking
    typingStatus fst snd fold_right].

(** Reduce the field projections of a state given field by field. *)
Ltac proj_st :=
  cbn [waitingPlayers rooms heap nextLoc socketRoom roomTimers turnTimers timers
       nextHandle trace] in *.

(** Normalise the log of a run to [old ++ new] and keep [new]. *)
Ltac new_log :=
  unfold new_actions; unfold_m; repeat rewrite <- app_assoc; rewrite skipn_trace; cbn [app].

(** Run a handler on a symbolic state, splitting on every test it makes. *)
Ltac split_m :=
  repeat (unfold_m;
    match goal with
    | |- context [match mget ?k ?m with _ => _ end] => destruct (mget k m) eqn:?
    | |- context [match js_truthy ?o with _ => _ end] => destruct (js_truthy o) eqn:?
    | |- context [match roomTimer ?r with _ => _ end] => destruct (roomTimer r) eqn:?
    | |- context [match ?o with Some _ => _ | None => _ end] => is_var o; destruct o
    | |- context [match firstn 2 ?w with _ => _ end] => destruct (firstn 2 w) as [|[? ?] [|[? ?] [|]]] eqn:?
    | |- context [if ?b then _ else _] => destruct b eqn:?
    end).

(** Pick the disjunct of a membership goal that closes by reflexivity. *)
Ltac in_list := repeat (first [left; reflexivity | right]).

(** ** Concrete runs of the handlers *)

(** C1 (failing input): A's successful guess in room "r1" cancels the room
    countdown and reports the result, but the room stays registered and
    active, and no removal timeout is scheduled (no timer is left at all). *)
Lemma guess_leaves_room_active_r1 :
  let s' := run (makeGuess "A" true (Some row_A)) s_match in
  new_actions s_match s' =
    [ClearTimer 0; DbSubmitGuess "r1" "A" true;
     Emit "A" (GUESS_RESULT true true "AI");
     Emit "B" (GAME_OVER "Your opponent has made their guess. The game is over.")]
  /\ option_map isActive (room_at "r1" s') = Some true
  /\ timers s' = [].
Proof. vm_compute. repeat split. Qed.

(** C2 (failing input): when A retires, B is notified first and the room
    countdown (handle 0) is not cancelled: it is still registered in
    [roomTimers] and still live.  It only stops at its next tick, which
    sees [isActive = false], after the notification. *)
Lemma retire_notifies_before_timer_stops_r1 :
  let s1 := run (retire "A") s_match in
  let s2 := run (fire 0) s1 in
  new_actions s_match s1 =
    [Emit "B" (OPPONENT_DISCONNECTED "Your opponent has retired from the game." (Some true));
     Emit "B" (YOUR_TURN false None (Some true));
     SetTimer 1 5000 (RemoveRoomOf "A")]
  /\ mget "r1" (roomTimers s1) = Some 0
  /\ mhas 0 (timers s1) = true
  /\ new_actions s1 s2 = [ClearTimer 0].
Proof. vm_compute. repeat split. Qed.

(** C3 (counterexample): A waits; B joins and the conversation cannot be
    created.  A, the other participant of the failed pairing, stays in the
    queue and is sent nothing. *)
Lemma pairing_failure_keeps_first_player_queued :
  let s' := run (handleMatchmaking "B" false "r1" true 1 None) s_waitA in
  mhas "A" (waitingPlayers s') = true
  /\ ~ (exists e, In (Emit "A" e) (new_actions s_waitA s')).
Proof.
  vm_compute. split; [reflexivity|].
  intros [e H]. simpl in H. intuition discriminate.
Qed.

(** C4 (counterexample): after A retires, room "r1" is inactive but still
    registered; B's message is persisted, delivered to A, and A's turn timer
    is started. *)
Lemma relay_in_inactive_room :
  let s1 := run (retire "A") s_match in
  let s2 := run (sendMessage "B" "hi" "t1" true) s1 in
  option_map isActive (room_at "r1" s1) = Some false
  /\ In (Emit "A" (RECEIVE_MESSAGE "hi" "t1" false)) (new_actions s1 s2)
  /\ mhas "A" (turnTimers s2) = true.
Proof. vm_compute. split; [reflexivity|]. split; [|reflexivity]. simpl; tauto. Qed.

(** C5 (counterexample): when A sends "hi", B's turn grant carries
    [timeLeft = 900000], not 900. *)
Lemma your_turn_time_left_not_900 :
  let s' := run (sendMessage "A" "hi" "t1" true) s_match in
  In (Emit "B" (YOUR_TURN true (Some 900000%Z) None)) (new_actions s_match s')
  /\ ~ In (Emit "B" (YOUR_TURN true (Some 900%Z) None)) (new_actions s_match s').
Proof.
  vm_compute. split; [simpl; tauto|].
  intro H. simpl in H. intuition discriminate.
Qed.

(** C6 (counterexample): A, already waiting, joins again: nothing happens at
    all, in particular no error is reported to A. *)
Lemma rejoin_is_noop_while_queued_cex :
  run (handleMatchmaking "A" false "r2" true 2 (Some "c2")) s_waitA = s_waitA
  /\ ~ (exists m, In (Emit "A" (ERROR m))
         (new_actions s_waitA (run (handleMatchmaking "A" false "r2" true 2 (Some "c2")) s_waitA))).
Proof.
  vm_compute. split; [reflexivity|]. intros [m H]. exact H.
Qed.

(** ** Guess resolution *)

(** C7: the correctness reported to the guesser is computed against the
    other participant's flag from the persisted row: player 2's flag when the
    guesser is the persisted player 1, player 1's flag otherwise. *)
Theorem guess_correctness (s : St) (sid rid : string) (room : Room) (g : bool)
    (res : GuessRow) :
  mget sid (socketRoom s) = Some rid -> rid <> "" -> room_at rid s = Some room ->
  let s' := run (makeGuess sid g (Some res)) s in
  exists c at_, In (Emit sid (GUESS_RESULT c g at_)) (new_actions s s')
   /\ (sid = player1_id res -> (c = true <-> g = player2_is_ai res))
   /\ (sid <> player1_id res -> (c = true <-> g = player1_is_ai res)).
Proof.
  intros Hs Hr Hroom.
  destruct s as [wp rms hp nl sr rt tt tms nh tr]; unfold room_at in Hroom; proj_st.
  destruct (mget rid rms) as [l|] eqn:Hl; [|discriminate].
  unfold_m. rewrite Hs, (js_truthy_some rid Hr), Hl, Hroom.
  destruct (mget rid rt); destruct (js_truthy (other_player room sid)); new_log;
  (do 2 eexists; split; [in_list|]);
  destruct (String.eqb_spec sid (player1_id res)); split; intro; try congruence;
  destruct g, (player1_is_ai res), (player2_is_ai res); cbn; intuition congruence.
Qed.

Lemma guess_correctness_witness :
  mget "A" (socketRoom s_match) = Some "r1" /\ ("r1" <> "") /\
  (exists room, room_at "r1" s_match = Some room) /\
  exists c at_, In (Emit "A" (GUESS_RESULT c true at_))
     (new_actions s_match (run (makeGuess "A" true (Some row_A)) s_match))
   /\ ("A" = player1_id row_A -> (c = true <-> true = player2_is_ai row_A))
   /\ ("A" <> player1_id row_A -> (c = true <-> true = player1_is_ai row_A)).
Proof.
  split; [reflexivity|]. split; [discriminate|]. split; [eexists; reflexivity|].
  destruct (room_at "r1" s_match) as [room|] eqn:E; [|discriminate].
  exact (guess_correctness s_match "A" "r1" room true row_A eq_refl
           ltac:(discriminate) E).
Defined.

(** C9: when [dbService.submitGuess] rejects, the guesser gets an error and
    nothing else changes: the room stays registered with the same object (so
    still active if it was), queue, sockets and turn timers are untouched,
    and the room countdown, cancelled before the call, is not restarted. *)
Theorem guess_failure_keeps_room (s : St) (sid rid : string) (room : Room) (g : bool) :
  mget sid (socketRoom s) = Some rid -> rid <> "" -> room_at rid s = Some room ->
  let s' := run (makeGuess sid g None) s in
  room_at rid s' = Some room
  /\ rooms s' = rooms s /\ heap s' = heap s
  /\ waitingPlayers s' = waitingPlayers s /\ socketRoom s' = socketRoom s
  /\ turnTimers s' = turnTimers s
  /\ roomTimers s' = mdel rid (roomTimers s) /\ mget rid (roomTimers s') = None
  /\ nextHandle s' = nextHandle s
  /\ new_actions s s' =
       match mget rid (roomTimers s) with Some h => [ClearTimer h] | None => [] end
       ++ [DbSubmitGuess rid sid g; Emit sid (ERROR "Failed to submit guess")].
Proof.
  intros Hs Hr Hroom.
  destruct s as [wp rms hp nl sr rt tt tms nh tr]; unfold room_at in *; proj_st.
  destruct (mget rid rms) as [l|] eqn:Hl; [|discriminate].
  unfold_m. rewrite Hs, (js_truthy_some rid Hr), Hl, Hroom.
  destruct (mget rid rt) eqn:Hrt; new_log; rewrite ?Hl, ?Hroom, ?mget_mdel_same;
  rewrite ?(mdel_absent rid rt Hrt), ?Hrt; repeat split; auto.
Qed.

Lemma guess_failure_keeps_room_witness :
  mget "A" (socketRoom s_match) = Some "r1" /\ ("r1" <> "") /\
  (exists room, room_at "r1" s_match = Some room /\
     room_at "r1" (run (makeGuess "A" true None) s_match) = Some room).
Proof.
  split; [reflexivity|]. split; [discriminate|].
  destruct (room_at "r1" s_match) as [room|] eqn:E; [|discriminate].
  exists room. split; [reflexivity|].
  exact (proj1 (guess_failure_keeps_room s_match "A" "r1" room true eq_refl
                  ltac:(discriminate) E)).
Defined.

(** ** Guess and session end *)

(** C1 (code_bug): whatever the outcome of [dbService.submitGuess], the
    MAKE_GUESS handler leaves the room registry and every room object as they
    were (in particular [isActive] is not cleared) and schedules no timer, so
    no removal of the room is ever scheduled by a guess. *)
Theorem guess_never_ends_room (s : St) (sid : string) (g : bool) (res : option GuessRow) :
  let s' := run (makeGuess sid g res) s in
  rooms s' = rooms s /\ heap s' = heap s /\ nextHandle s' = nextHandle s
  /\ (forall h ms t, In (SetTimer h ms t) (new_actions s s') -> False).
Proof.
  destruct s as [wp rms hp nl sr rt tt tms nh tr].
  unfold new_actions. split_m; repeat rewrite <- app_assoc; rewrite ?skipn_trace;
  cbn [app]; repeat split; try reflexivity; intros h ms t Hin; cbn in Hin;
  intuition discriminate.
Qed.

(** ** Pairing *)

(** C3 (amended): when [dbService.createConversation] fails or gives no
    usable [conversation_id], no room is created and no room state changes;
    only the joining participant may be notified (with an error) and
    removed from the queue; every other participant, the earlier-queued
    partner of the failed pairing included, keeps its queue entry. *)
Theorem pairing_failure_only_joiner (s : St) (sid : string) (a : bool) (rid : string)
    (f : bool) (now : Z) (conv : option string) :
  js_truthy conv = None ->
  let s' := run (handleMatchmaking sid a rid f now conv) s in
  rooms s' = rooms s /\ heap s' = heap s /\ socketRoom s' = socketRoom s
  /\ roomTimers s' = roomTimers s /\ timers s' = timers s
  /\ (forall p, p <> sid -> mget p (waitingPlayers s') = mget p (waitingPlayers s))
  /\ (forall t e, In (Emit t e) (new_actions s s') -> t = sid)
  /\ (forall r p0 p1 a0 a1, In (DbCreateConversation r p0 p1 a0 a1) (new_actions s s') ->
        mget sid (waitingPlayers s') = None
        /\ In (Emit sid (ERROR "Failed to join matchmaking")) (new_actions s s')).
Proof.
  intro Hc. destruct s as [wp rms hp nl sr rt tt tms nh tr].
  unfold new_actions. split_m; try congruence;
  repeat rewrite <- app_assoc; rewrite ?skipn_trace, ?Nat.sub_diag; cbn [app skipn];
  rewrite ?(skipn_all2 tr) by lia; cbn [app];
  repeat split; intros; rewrite ?mget_mdel_other, ?mget_mset_other, ?mget_mdel_same by auto;
  cbn in *; intuition (try discriminate; try congruence).
Qed.

Lemma pairing_failure_only_joiner_witness :
  js_truthy None = None /\
  mget "A" (waitingPlayers (run (handleMatchmaking "B" false "r1" true 1 None) s_waitA))
  = mget "A" (waitingPlayers s_waitA).
Proof.
  split; [reflexivity|].
  apply (proj1 (proj2 (proj2 (proj2 (proj2 (proj2
    (pairing_failure_only_joiner s_waitA "B" false "r1" true 1 None eq_refl))))))).
  discriminate.
Defined.

(** ** Relaying messages *)

Lemma find_self (sid : string) (l : list string) :
  In sid l -> find (fun p => String.eqb p sid) l = Some sid.
Proof.
  induction l as [|p r IH]; cbn; [tauto|].
  destruct (String.eqb_spec p sid) as [->|Hne]; [reflexivity|].
  intros [->|Hin]; [congruence|auto].
Qed.

(** A message relayed in a registered room: persisted, echoed to the sender,
    delivered to the other player, followed by the turn grant, then the
    other player's turn countdown (re)started; the room's [isActive] flag is
    never consulted. *)
Lemma sendMessage_relays (s : St) (sid rid : string) (l : nat) (room : Room)
    (other text ts : string) :
  mget sid (socketRoom s) = Some rid -> rid <> "" ->
  mget rid (rooms s) = Some l -> mget l (heap s) = Some room ->
  sid <> "" -> In sid (players room) ->
  other_player room sid = Some other -> other <> "" ->
  let s' := run (sendMessage sid text ts true) s in
  (exists b,
     new_actions s s' =
       [DbCreateMessage rid b text sid;
        Emit sid (RECEIVE_MESSAGE text ts true);
        Emit other (RECEIVE_MESSAGE text ts false);
        Emit other (YOUR_TURN true (Some TURN_TIME_LIMIT) None)]
       ++ match mget other (turnTimers s) with Some h => [ClearTimer h] | None => [] end
       ++ [SetTimer (nextHandle s) 1000 (TurnTick rid other 900)])
  /\ mget other (turnTimers s') = Some (nextHandle s)
  /\ mget (nextHandle s) (timers s') = Some (TurnTick rid other 900)
  /\ room_at rid s' = Some (push_message (text, ts) room).
Proof.
  intros Hs Hr Hl Hroom Hsid Hin Ho Hne.
  destruct s as [wp rms hp nl sr rt tt tms nh tr]; proj_st.
  unfold new_actions, room_at. unfold_m.
  rewrite Hs, (js_truthy_some rid Hr), Hl, Hroom.
  rewrite (find_self sid _ Hin), Ho.
  rewrite (js_truthy_some sid Hsid), (js_truthy_some other Hne).
  repeat progress (unfold_m; rewrite ?Hl, ?Hroom, ?mget_mset_same).
  destruct (mget other tt) eqn:Htt; unfold_m;
  repeat rewrite <- app_assoc; rewrite skipn_trace; cbn [app];
  rewrite ?mget_mset_same; cbn [mget keq KeyEq_nat]; rewrite ?Nat.eqb_refl;
  repeat split; try (eexists; reflexivity); rewrite ?Hl, ?mget_mset_same; reflexivity.
Qed.

(** C4 (amended): SEND_MESSAGE only requires the sender's room to be
    registered, not active.  In a registered room whose [isActive] is false
    (the grace window after a retire, disconnect or time-up), a message from a
    member whose persistence succeeds is still appended to the transcript,
    delivered to the other participant, and starts that participant's turn
    countdown. *)
Theorem relay_ignores_isActive (s : St) (sid rid : string) (l : nat) (room : Room)
    (other text ts : string) :
  mget sid (socketRoom s) = Some rid -> rid <> "" ->
  mget rid (rooms s) = Some l -> mget l (heap s) = Some room ->
  isActive room = false ->
  sid <> "" -> In sid (players room) ->
  other_player room sid = Some other -> other <> "" ->
  let s' := run (sendMessage sid text ts true) s in
  In (Emit other (RECEIVE_MESSAGE text ts false)) (new_actions s s')
  /\ mget other (turnTimers s') = Some (nextHandle s)
  /\ mget (nextHandle s) (timers s') = Some (TurnTick rid other 900)
  /\ (exists room', room_at rid s' = Some room' /\ isActive room' = false
        /\ messages room' = messages room ++ [(text, ts)]).
Proof.
  intros Hs Hr Hl Hroom Hina Hsid Hin Ho Hne.
  destruct (sendMessage_relays s sid rid l room other text ts Hs Hr Hl Hroom Hsid Hin Ho Hne)
    as [[b Hnew] [Htt [Htm Hat]]].
  split; [rewrite Hnew; cbn; tauto|].
  split; [exact Htt|]. split; [exact Htm|].
  eexists; split; [exact Hat|]. split; [exact Hina|reflexivity].
Qed.

Lemma relay_ignores_isActive_witness :
  let s1 := run (retire "A") s_match in
  mget "B" (socketRoom s1) = Some "r1" /\ mget "r1" (rooms s1) = Some 0
  /\ (exists room, mget 0 (heap s1) = Some room /\ isActive room = false
      /\ In (Emit "A" (RECEIVE_MESSAGE "hi" "t1" false))
            (new_actions s1 (run (sendMessage "B" "hi" "t1" true) s1))).
Proof.
  cbv zeta. split; [reflexivity|]. split; [reflexivity|].
  eexists; split; [vm_compute; reflexivity|]. split; [reflexivity|].
  eapply (relay_ignores_isActive (run (retire "A") s_match) "B" "r1" 0 _ "A" "hi" "t1");
    try reflexivity; try discriminate; vm_compute; tauto.
Defined.

(** C5 (amended): a relayed message reaches the other participant as
    RECEIVE_MESSAGE with [isUser = false], immediately followed by
    YOUR_TURN with [canSendMessage = true] and [timeLeft = 900000]
    (TURN_TIME_LIMIT, in milliseconds); nothing else is emitted afterwards,
    and the turn countdown then started counts down from 900 seconds. *)
Theorem relay_turn_grant (s : St) (sid rid : string) (l : nat) (room : Room)
    (other text ts : string) :
  mget sid (socketRoom s) = Some rid -> rid <> "" ->
  mget rid (rooms s) = Some l -> mget l (heap s) = Some room ->
  sid <> "" -> In sid (players room) ->
  other_player room sid = Some other -> other <> "" ->
  let s' := run (sendMessage sid text ts true) s in
  (exists b rest,
     new_actions s s' =
       [DbCreateMessage rid b text sid;
        Emit sid (RECEIVE_MESSAGE text ts true);
        Emit other (RECEIVE_MESSAGE text ts false);
        Emit other (YOUR_TURN true (Some 900000%Z) None)] ++ rest
     /\ (forall t e, ~ In (Emit t e) rest))
  /\ mget (nextHandle s) (timers s') = Some (TurnTick rid other 900).
Proof.
  intros Hs Hr Hl Hroom Hsid Hin Ho Hne.
  destruct (sendMessage_relays s sid rid l room other text ts Hs Hr Hl Hroom Hsid Hin Ho Hne)
    as [[b Hnew] [_ [Htm _]]].
  split; [|exact Htm].
  exists b; eexists; split; [exact Hnew|].
  intros t e Hin'. destruct (mget other (turnTimers s)); cbn in Hin';
  intuition discriminate.
Qed.

Lemma relay_turn_grant_witness :
  mget "A" (socketRoom s_match) = Some "r1" /\ mget "r1" (rooms s_match) = Some 0
  /\ (exists room, mget 0 (heap s_match) = Some room
      /\ mget 1 (timers (run (sendMessage "A" "hi" "t1" true) s_match))
         = Some (TurnTick "r1" "B" 900)).
Proof.
  split; [reflexivity|]. split; [reflexivity|].
  eexists; split; [vm_compute; reflexivity|].
  eapply (relay_turn_grant s_match "A" "r1" 0 _ "B" "hi" "t1");
    try reflexivity; try discriminate; vm_compute; tauto.
Defined.

(** ** Joining the queue *)

(** C6 (amended): JOIN_MATCHMAKING from a socket that is already waiting, or
    whose room is still registered, changes nothing at all: no queue entry is
    added and nothing is emitted (no error, no waiting notice). *)
Theorem rejoin_is_noop (s : St) (sid : string) (a : bool) (rid : string) (f : bool)
    (now : Z) (conv : option string) :
  mhas sid (waitingPlayers s) = true \/ fst (room_of_socket sid s) <> None ->
  run (handleMatchmaking sid a rid f now conv) s = s.
Proof.
  intro H. destruct s as [wp rms hp nl sr rt tt tms nh tr].
  unfold room_of_socket, gets in H. cbn [fst] in H. proj_st.
  unfold_m.
  destruct (match js_truthy (mget sid sr) with
            | Some rid0 => match mget rid0 rms with
                           | Some l => match mget l hp with
                                       | Some r => Some (rid0, l, r)
                                       | None => None end
                           | None => None end
            | None => None end) as [r|] eqn:E.
  - destruct r as [[? ?] ?]. reflexivity.
  - destruct H as [H|H]; [|contradiction].
    rewrite H. reflexivity.
Qed.

Lemma rejoin_is_noop_witness :
  mhas "A" (waitingPlayers s_waitA) = true /\
  run (handleMatchmaking "A" false "r2" true 2 (Some "c2")) s_waitA = s_waitA.
Proof.
  split; [reflexivity|].
  apply rejoin_is_noop. left. reflexivity.
Defined.

(** ** FIFO pairing *)

Lemma mget_none_notin {V} (k : string) (m : list (string * V)) :
  mget k m = None -> ~ In k (map fst m).
Proof.
  induction m as [|[k' v] r IH]; cbn; [tauto|].
  destruct (String.eqb_spec k k') as [->|Hne]; [discriminate|].
  intros H [->|Hin]; [congruence|exact (IH H Hin)].
Qed.

Lemma mset_absent {V} (k : string) (v : V) (m : list (string * V)) :
  mget k m = None -> mset k v m = m ++ [(k, v)].
Proof.
  induction m as [|[k' v'] r IH]; cbn; [reflexivity|].
  destruct (String.eqb_spec k k') as [->|Hne]; [discriminate|].
  intro H. rewrite (IH H). reflexivity.
Qed.

Lemma mdel_notin {V} (k : string) (m : list (string * V)) :
  ~ In k (map fst m) -> mdel k m = m.
Proof.
  unfold mdel. induction m as [|[k' v] r IH]; cbn; [reflexivity|].
  intro H. destruct (String.eqb_spec k k') as [->|Hne]; [tauto|].
  cbn. f_equal. apply IH. tauto.
Qed.

Lemma mdel_cons_same {V} (k : string) (v : V) (m : list (string * V)) :
  ~ In k (map fst m) -> mdel k ((k, v) :: m) = m.
Proof.
  intro H. rewrite <- (mdel_notin k m H) at 2.
  unfold mdel. cbn [filter fst keq KeyEq_string]. rewrite String.eqb_refl. reflexivity.
Qed.

Lemma mdel_cons_other {V} (k k' : string) (v : V) (m : list (string * V)) :
  k <> k' -> mdel k ((k', v) :: m) = (k', v) :: mdel k m.
Proof.
  intro H. unfold mdel. cbn [filter fst keq KeyEq_string].
  destruct (String.eqb_spec k k'); [contradiction|reflexivity].
Qed.

(** Deleting the two front keys of a queue with distinct keys leaves the rest. *)
Lemma mdel_front_two {V} (p0 p1 : string) (a0 a1 : V) (rest : list (string * V)) :
  NoDup (map fst ((p0, a0) :: (p1, a1) :: rest)) ->
  mdel p1 (mdel p0 ((p0, a0) :: (p1, a1) :: rest)) = rest.
Proof.
  cbn [map fst]. intro Hnd. inversion Hnd as [|? ? Hn0 Hnd1]; subst.
  inversion Hnd1 as [|? ? Hn1 _]; subst.
  rewrite mdel_cons_same by exact Hn0.
  apply mdel_cons_same. exact Hn1.
Qed.

Lemma nodup_snoc {V} (m : list (string * V)) (k : string) (v : V) :
  NoDup (map fst m) -> ~ In k (map fst m) -> NoDup (map fst (m ++ [(k, v)])).
Proof.
  intros Hnd Hk. rewrite map_app. cbn.
  apply NoDup_app; auto using NoDup_cons, NoDup_nil.
  intros x Hx Hy. cbn in Hy. destruct Hy as [<-|[]]. contradiction.
Qed.

(** C8: when a join brings the queue to two or more entries, the pairing is
    made at once from the two earliest-inserted entries (in insertion order,
    whoever joined last), these two are handed to
    [dbService.createConversation] and, once the room is created, it holds
    exactly them and both have left the queue, the later entries staying in
    order. *)
Theorem pairing_takes_two_earliest (s : St) (sid : string) (a : bool) (rid : string)
    (f : bool) (now : Z) (cid : string) :
  fst (room_of_socket sid s) = None -> mget sid (waitingPlayers s) = None ->
  NoDup (map fst (waitingPlayers s)) -> (1 <= length (waitingPlayers s))%nat ->
  cid <> "" ->
  let s' := run (handleMatchmaking sid a rid f now (Some cid)) s in
  exists p0 a0 p1 a1 rest,
    waitingPlayers s ++ [(sid, a)] = (p0, a0) :: (p1, a1) :: rest
    /\ hd_error (new_actions s s') = Some (DbCreateConversation rid p0 p1 a0 a1)
    /\ waitingPlayers s' = rest
    /\ (exists room, room_at rid s' = Some room /\ players room = [p0; p1]
                     /\ isActive room = true).
Proof.
  intros Hnr Hnq Hnd Hlen Hcid.
  destruct s as [wp rms hp nl sr rt tt tms nh tr].
  unfold room_of_socket, gets in Hnr. cbn [fst] in Hnr. proj_st.
  assert (Hnd' := nodup_snoc wp sid a Hnd (mget_none_notin sid wp Hnq)).
  destruct (wp ++ [(sid, a)]) as [|[p0 a0] [|[p1 a1] rest]] eqn:Happ.
  { destruct wp; discriminate. }
  { destruct wp as [|? [|? ?]]; cbn in Hlen; try lia; discriminate. }
  exists p0, a0, p1, a1, rest. split; [reflexivity|].
  unfold new_actions, room_at. unfold_m.
  rewrite Hnr. unfold mhas. rewrite Hnq.
  repeat progress (unfold_m; rewrite ?(mset_absent sid a wp Hnq), ?Happ,
                     ?(js_truthy_some cid Hcid), ?mget_mset_same;
                   cbn [length firstn Nat.leb mget keq KeyEq_nat]; rewrite ?Nat.eqb_refl).
  rewrite (mdel_front_two p0 p1 a0 a1 rest Hnd').
  destruct (mget rid rt); unfold_m;
  repeat rewrite <- app_assoc; rewrite skipn_trace; cbn [app hd_error];
  rewrite ?mget_mset_same; cbn [mget keq KeyEq_nat]; rewrite ?Nat.eqb_refl;
  (split; [reflexivity|]); (split; [reflexivity|]);
  eexists; (split; [reflexivity|]); split; reflexivity.
Qed.

Lemma pairing_takes_two_earliest_witness :
  fst (room_of_socket "B" s_waitA) = None /\ mget "B" (waitingPlayers s_waitA) = None /\
  NoDup (map fst (waitingPlayers s_waitA)) /\ (1 <= length (waitingPlayers s_waitA))%nat /\
  waitingPlayers (run (handleMatchmaking "B" false "r1" true 1 (Some "c1")) s_waitA) = [].
Proof.
  split; [reflexivity|]. split; [reflexivity|].
  split; [vm_compute; repeat constructor; cbn; tauto|]. split; [vm_compute; lia|].
  destruct (pairing_takes_two_earliest s_waitA "B" false "r1" true 1 "c1" eq_refl eq_refl
              ltac:(vm_compute; repeat constructor; cbn; tauto) ltac:(vm_compute; lia)
              ltac:(discriminate))
    as (p0 & a0 & p1 & a1 & rest & Happ & _ & Hw & _).
  rewrite Hw. vm_compute in Happ. injection Happ as _ _ _ _ Hr. symmetry. exact Hr.
Defined.

(** ** Turn timers (C10) *)

Lemma mget_cons {K V} `{KeyEq K} (k k' : K) (v : V) (m : list (K * V)) :
  mget k ((k', v) :: m) = if keq k k' then Some v else mget k m.
Proof. reflexivity. Qed.

(** Resolve lookups in maps built from the original ones. *)
Ltac get_simpl :=
  repeat first
    [ rewrite mget_mdel_same
    | rewrite mget_mset_same
    | match goal with
      | |- context [mget ?k ((?k', ?v) :: ?m)] =>
          rewrite (mget_cons k k' v m); destruct (keq_spec k k'); [subst|]
      | |- context [mget ?k (mdel ?k' ?m)] =>
          destruct (keq_spec k k'); [subst; rewrite mget_mdel_same
                                    |rewrite (mget_mdel_other k k' m) by assumption]
      | |- context [mget ?k (mset ?k' ?v ?m)] =>
          destruct (keq_spec k k'); [subst; rewrite mget_mset_same
                                    |rewrite (mget_mset_other k k' v m) by assumption]
      end ].


(** [forEach] over callbacks that only append to the log only appends to the log. *)
Lemma forEach_frame (l : list string) (g : string -> M unit) (s : St) :
  (forall p s0, exists a, g p s0 = (tt, with_trace (trace s0 ++ a) s0)) ->
  exists a, forEach l g s = (tt, with_trace (trace s ++ a) s).
Proof.
  intros Hg. revert s. induction l as [|p l IH]; intros s.
  - exists []. rewrite app_nil_r. destruct s; reflexivity.
  - destruct (Hg p s) as [a Ha].
    destruct (IH (with_trace (trace s ++ a) s)) as [b Hb].
    exists (a ++ b).
    change (forEach (p :: l) g s) with (bind (g p) (fun _ => forEach l g) s).
    unfold bind. rewrite Ha. rewrite Hb. destruct s.
    cbn. rewrite app_assoc. reflexivity.
Qed.

Ltac unfold_m_fe :=
  cbv beta iota zeta delta [run bind gets modify ret log emit wp_set wp_delete rooms_set
    rooms_delete socketRoom_set roomTimers_set roomTimers_delete turnTimers_set
    turnTimers_delete alloc_room room_update setTimer clearTimer update_task
    drop_task room_get room_of_socket when_truthy
    with_wp with_rooms with_heap with_socketRoom with_roomTimers with_turnTimers
    with_timers with_trace
    waitingPlayers rooms heap nextLoc socketRoom roomTimers turnTimers timers
    nextHandle trace fire handleForfeit fst snd].

Ltac split_fe :=
  repeat (unfold_m_fe;
    match goal with
    | |- context [forEach ?l ?g ?s] =>
        let E := fresh in
        assert (E : forall p s0, exists a, g p s0 = (tt, with_trace (trace s0 ++ a) s0))
          by (intros; eexists; reflexivity);
        let a := fresh "a" in
        destruct (forEach_frame l g s E) as [a ->]; clear E
    | |- context [match mget ?k ?m with _ => _ end] => destruct (mget k m) eqn:?
    | |- context [match js_truthy ?o with _ => _ end] => destruct (js_truthy o) eqn:?
    | |- context [match ?o with Some _ => _ | None => _ end] => is_var o; destruct o
    | |- context [match ?t with RoomTick _ _ _ => _ | TurnTick _ _ _ => _
                  | RemoveRoomOf _ => _ | RemoveRoom _ => _ end] => is_var t; destruct t
    | |- context [if ?b then _ else _] => destruct b eqn:?
    end).

Lemma keep_turn_fire (h0 : nat) (s : St) (pid : string) (h : nat) (t : Task) :
  TimerInv s -> mget pid (turnTimers s) = Some h -> mget h (timers s) = Some t ->
  h0 <> h ->
  mget pid (turnTimers (run (fire h0) s)) = Some h /\ mget h (timers (run (fire h0) s)) = Some t.
Proof.
  intros [I1 I2 I3 I5 I4] Hp Ht Hne.
  destruct (I5 _ _ _ Hp Ht) as (rid0 & tl0 & ->).
  destruct s as [wp rms hp nl sr rt tt tms nh tr]; proj_st.
  pose proof (I1 _ _ Ht) as Hlt.
  split_fe; get_simpl.
  all: try (split; assumption).
  all: try (exfalso; eapply I2; eassumption).
  all: try (exfalso; congruence).
  all: try (exfalso; lia).
  all: try (exfalso; match goal with
         | H : mget ?k ?m = Some (TurnTick _ _ _) |- _ =>
             pose proof (I3 _ _ _ _ H); congruence end).

Qed.
Lemma keep_turn_step (op : Op) (s : St) (pid : string) (h : nat) (t : Task) :
  TimerInv s -> mget pid (turnTimers s) = Some h -> mget h (timers s) = Some t ->
  let s' := run (step op) s in
  (mget pid (turnTimers s') = Some h /\ mget h (timers s') = Some t)
  \/ op = OpFire h
  \/ (mget h (timers s') = None
      /\ mget pid (turnTimers s') = Some (nextHandle s)
      /\ exists rid, mget (nextHandle s) (timers s') = Some (TurnTick rid pid 900)).
Proof.
  intros Inv Hp Ht.
  destruct (match op with OpFire h0 => Some h0 | _ => None end) as [h0|] eqn:Ef.
  { destruct op; try discriminate Ef. injection Ef as ->. cbv zeta.
    destruct (Nat.eq_dec h0 h) as [->|Hne]; [right; left; reflexivity|].
    left. exact (keep_turn_fire h0 s pid h t Inv Hp Ht Hne). }
  destruct Inv as [I1 I2 I3 I5 I4].
  destruct (I5 _ _ _ Hp Ht) as (rid0 & tl0 & ->).
  destruct s as [wp rms hp nl sr rt tt tms nh tr]; proj_st.
  pose proof (I1 _ _ Ht) as Hlt.
  destruct op; try discriminate Ef; split_m; get_simpl.
  all: try (left; split; assumption).
  all: try (exfalso; eapply I2; eassumption).
  all: try (exfalso; congruence).
  all: try (exfalso; lia).
  all: try (exfalso; match goal with
         | H : mget ?q ?m1 = Some ?k, H' : mget ?k ?m2 = Some (TurnTick _ _ _) |- _ =>
             destruct (I5 _ _ _ H H') as (? & ? & ?); congruence end).
  all: repeat match goal with H : Some _ = Some _ |- _ => injection H as H; subst end.
  all: try (exfalso; match goal with
         | H : mget ?l ?m3 = Some ?r, H' : roomTimer ?r = Some _ |- _ =>
             rewrite (I4 _ _ H) in H'; discriminate end).
  all: try (right; right; split; [reflexivity|split; [reflexivity|eexists; reflexivity]]).

Qed.

Lemma turn_tick_after_removal (s : St) (h : nat) (rid pid : string) (tl : Z) :
  mget rid (rooms s) = None -> mget h (timers s) = Some (TurnTick rid pid tl) ->
  let s' := run (fire h) s in
  new_actions s s' =
    Emit pid (TURN_TIME_UPDATE (tl - 1) (tl - 1 <=? 5)%Z)
    :: (if (tl - 1 <=? 0)%Z then [ClearTimer h; Emit pid TURN_TIME_UP] else [])
  /\ rooms s' = rooms s /\ roomTimers s' = roomTimers s /\ heap s' = heap s
  /\ mget h (timers s') =
       (if (tl - 1 <=? 0)%Z then None else Some (TurnTick rid pid (tl - 1))).
Proof.
  intros Hr Ht.
  destruct s as [wp rms hp nl sr rt tt tms nh tr]; proj_st.
  unfold new_actions; unfold_m. rewrite Ht.
  split_m; new_log; get_simpl.
  all: try congruence.
  all: repeat split.
Qed.

(** The timer invariant holds in [s_gone]. *)
Lemma s_gone_inv : TimerInv s_gone.
Proof.
  assert (Et : timers s_gone = [(1%nat, TurnTick "r1" "B" 900)]) by (vm_compute; reflexivity).
  assert (Eq : turnTimers s_gone = [("B", 1%nat)]) by (vm_compute; reflexivity).
  assert (Er : roomTimers s_gone = []) by (vm_compute; reflexivity).
  assert (En : nextHandle s_gone = 3%nat) by (vm_compute; reflexivity).
  constructor.
  - intros k t H. rewrite Et, mget_cons in H. rewrite En.
    destruct (keq_spec k 1%nat); [lia | discriminate].
  - intros r k rid q tl H. rewrite Er in H. discriminate.
  - intros k rid q tl H. rewrite Et, mget_cons in H. rewrite Eq.
    destruct (keq_spec k 1%nat); [|discriminate]. subst. injection H as <- <- <-.
    reflexivity.
  - intros q k t H1 H2. rewrite Eq, mget_cons in H1.
    destruct (keq_spec q "B"); [|discriminate]. injection H1 as <-. subst.
    rewrite Et in H2. injection H2 as <-. eauto.
  - intros l r H. vm_compute in H. destruct l; [|discriminate].
    injection H as <-. reflexivity.
Qed.

(** C10: let participant [pid] have a running turn timer [h] (a tick of
    session [rid]). Every operation other than a tick of [h] itself either
    leaves [h] registered and in place, or replaces it with a fresh
    900-second turn timer of the same participant; this covers disconnect,
    retire, guesses and room-timer ticks. And once [rid] is no longer
    registered, a tick of [h] still emits the turn-time update, and at expiry
    cancels [h] and emits the time-up notice, while forfeit handling changes
    nothing: the registry, the room timers and the rooms are untouched. *)
Theorem turn_timer_outlives_room (op : Op) (s : St) (pid rid : string) (h : nat) (tl : Z) :
  TimerInv s -> mget pid (turnTimers s) = Some h ->
  mget h (timers s) = Some (TurnTick rid pid tl) ->
  (let s' := run (step op) s in
   (mget pid (turnTimers s') = Some h /\ mget h (timers s') = Some (TurnTick rid pid tl))
   \/ op = OpFire h
   \/ (mget h (timers s') = None
       /\ mget pid (turnTimers s') = Some (nextHandle s)
       /\ exists rid', mget (nextHandle s) (timers s') = Some (TurnTick rid' pid 900)))
  /\ (mget rid (rooms s) = None ->
      let s' := run (fire h) s in
      new_actions s s' =
        Emit pid (TURN_TIME_UPDATE (tl - 1) (tl - 1 <=? 5)%Z)
        :: (if (tl - 1 <=? 0)%Z then [ClearTimer h; Emit pid TURN_TIME_UP] else [])
      /\ rooms s' = rooms s /\ roomTimers s' = roomTimers s /\ heap s' = heap s
      /\ mget h (timers s') =
           (if (tl - 1 <=? 0)%Z then None else Some (TurnTick rid pid (tl - 1)))).
Proof.
  intros Inv Hp Ht. split.
  - exact (keep_turn_step op s pid h _ Inv Hp Ht).
  - intros Hr. exact (turn_tick_after_removal s h rid pid tl Hr Ht).
Qed.

Lemma turn_timer_outlives_room_witness :
  mget "r1" (rooms s_gone) = None /\
  (let s' := run (step (OpRetire "B")) s_gone in
   (mget "B" (turnTimers s') = Some 1%nat
    /\ mget 1%nat (timers s') = Some (TurnTick "r1" "B" 900))
   \/ OpRetire "B" = OpFire 1
   \/ (mget 1%nat (timers s') = None
       /\ mget "B" (turnTimers s') = Some (nextHandle s_gone)
       /\ exists rid', mget (nextHandle s_gone) (timers s') = Some (TurnTick rid' "B" 900)))
  /\ (mget "r1" (rooms s_gone) = None ->
      let s' := run (fire 1) s_gone in
      new_actions s_gone s' =
        Emit "B" (TURN_TIME_UPDATE (900 - 1) (900 - 1 <=? 5)%Z)
        :: (if (900 - 1 <=? 0)%Z then [ClearTimer 1; Emit "B" TURN_TIME_UP] else [])
      /\ rooms s' = rooms s_gone /\ roomTimers s' = roomTimers s_gone
      /\ heap s' = heap s_gone
      /\ mget 1%nat (timers s') =
           (if (900 - 1 <=? 0)%Z then None else Some (TurnTick "r1" "B" (900 - 1)))).
Proof.
  split; [vm_compute; reflexivity|].
  apply (turn_timer_outlives_room (OpRetire "B") s_gone "B" "r1" 1 900).
  - exact s_gone_inv.
  - vm_compute; reflexivity.
  - vm_compute; reflexivity.
Defined.

(** * Further properties of the server *)

(** ** Proof support *)

(** [unfold_m], keeping [forEach] folded. *)
Ltac unfold_all :=
  cbv beta iota zeta delta [run bind gets modify ret log emit wp_set wp_delete rooms_set
    rooms_delete socketRoom_set roomTimers_set roomTimers_delete turnTimers_set
    turnTimers_delete alloc_room room_update setTimer clearTimer update_task
    drop_task room_get room_of_socket when_truthy
    with_wp with_rooms with_heap with_socketRoom with_roomTimers with_turnTimers
    with_timers with_trace
    waitingPlayers rooms heap nextLoc socketRoom roomTimers turnTimers timers
    nextHandle trace
    makeGuess sendMessage retire handleDisconnect handleMatchmaking fire step
    startRoomCountdown startTurnCountdown handleForfeit cancelMatchmaking
    typingStatus fst snd].

(** [split_m] for every handler and timer callback: a [forEach] over a
    symbolic list of emits is replaced by its effect on the log, one over a
    literal list is unrolled. *)
Ltac split_all :=
  repeat (unfold_all;
    match goal with
    | |- context [forEach ?l ?g ?s] =>
        let E := fresh in
        assert (E : forall p s0, exists a, g p s0 = (tt, with_trace (trace s0 ++ a) s0))
          by (intros; eexists; reflexivity);
        let a := fresh "a" in
        destruct (forEach_frame l g s E) as [a ->]; clear E
    | |- context [forEach (_ :: _) _ _] => cbv beta iota delta [forEach fold_right]
    | |- context [match mget ?k ?m with _ => _ end] => destruct (mget k m) eqn:?
    | |- context [match js_truthy ?o with _ => _ end] => destruct (js_truthy o) eqn:?
    | |- context [match roomTimer ?r with _ => _ end] => destruct (roomTimer r) eqn:?
    | |- context [match ?o with Some _ => _ | None => _ end] => is_var o; destruct o
    | |- context [match ?t with RoomTick _ _ _ => _ | TurnTick _ _ _ => _
                  | RemoveRoomOf _ => _ | RemoveRoom _ => _ end] => is_var t; destruct t
    | |- context [match firstn 2 ?w with _ => _ end] =>
        destruct (firstn 2 w) as [|[? ?] [|[? ?] [|]]] eqn:?
    | |- context [if ?b then _ else _] => destruct b eqn:?
    end).

(** ** The matchmaking queue *)


(** A property kept by every operation holds after any run from [init]. *)
Lemma run_ops_preserves (P : St -> Prop) :
  (forall op s, P s -> P (run (step op) s)) ->
  forall ops s, P s -> P (run_ops ops s).
Proof. intros Hstep ops. induction ops as [|op r IH]; intros s Hs; cbn; auto. Qed.


(** ** Handlers for a socket without a room *)

(** A socket whose [roomId] is unset, empty or no longer registered: SEND_MESSAGE
    and MAKE_GUESS only answer "Invalid room" (no database call, no state
    change), TYPING_STATUS and RETIRE do nothing at all, and a disconnect
    only removes the socket from the queue. *)
Theorem no_room_handlers (s : St) (sid : string) :
  (forall rid, mget sid (socketRoom s) = Some rid -> rid = "" \/ mget rid (rooms s) = None) ->
  (forall text ts ok, run (sendMessage sid text ts ok) s
     = with_trace (trace s ++ [Emit sid (ERROR "Invalid room")]) s)
  /\ (forall g res, run (makeGuess sid g res) s
     = with_trace (trace s ++ [Emit sid (ERROR "Invalid room")]) s)
  /\ (forall b, run (typingStatus sid b) s = s)
  /\ run (retire sid) s = s
  /\ run (handleDisconnect sid) s = with_wp (mdel sid (waitingPlayers s)) s.
Proof.
  intro H.
  assert (Hr : js_truthy (mget sid (socketRoom s)) = None
               \/ exists rid, js_truthy (mget sid (socketRoom s)) = Some rid
                              /\ mget rid (rooms s) = None).
  { destruct (mget sid (socketRoom s)) as [rid|] eqn:E; [|left; reflexivity].
    destruct (H rid eq_refl) as [->|Hn]; [left; reflexivity|].
    unfold js_truthy. destruct (String.eqb_spec rid ""); [left; reflexivity|].
    right. eauto. }
  destruct s as [wp rms hp nl sr rt tt tms nh tr]; proj_st.
  destruct Hr as [Hr|(rid & Hr & Hn)];
  repeat split; intros; unfold_all; rewrite Hr; rewrite ?Hn; reflexivity.
Qed.

Lemma no_room_handlers_witness :
  (forall rid, mget "A" (socketRoom s_waitA) = Some rid ->
     rid = "" \/ mget rid (rooms s_waitA) = None)
  /\ run (handleDisconnect "A") s_waitA = with_wp (mdel "A" (waitingPlayers s_waitA)) s_waitA.
Proof.
  assert (H : forall rid, mget "A" (socketRoom s_waitA) = Some rid ->
                rid = "" \/ mget rid (rooms s_waitA) = None)
    by (intros rid E; vm_compute in E; discriminate).
  split; [exact H|].
  exact (proj2 (proj2 (proj2 (proj2 (no_room_handlers s_waitA "A" H))))).
Defined.

(** ** TYPING_STATUS *)

(** TYPING_STATUS changes no server state; it sends at most one event,
    OPPONENT_TYPING with the sender's flag, and only to the other player of
    the sender's registered room, never back to the sender. *)
Theorem typing_only_notifies_other (s : St) (sid : string) (b : bool) :
  let s' := run (typingStatus sid b) s in
  with_trace (trace s) s' = s
  /\ (new_actions s s' = []
      \/ exists rid room o,
           mget sid (socketRoom s) = Some rid /\ room_at rid s = Some room
           /\ In o (players room) /\ o <> sid
           /\ new_actions s s' = [Emit o (OPPONENT_TYPING b)]).
Proof.
  destruct s as [wp rms hp nl sr rt tt tms nh tr].
  unfold new_actions, room_at; proj_st. unfold_all.
  destruct (js_truthy (mget sid sr)) as [rid|] eqn:E1;
    [|rewrite skipn_all2 by lia; split; [reflexivity|left; reflexivity]].
  destruct (mget rid rms) as [l|] eqn:E2;
    [|rewrite skipn_all2 by lia; split; [reflexivity|left; reflexivity]].
  destruct (mget l hp) as [room|] eqn:E3;
    [|rewrite skipn_all2 by lia; split; [reflexivity|left; reflexivity]].
  unfold_all. destruct (js_truthy (other_player room sid)) as [o|] eqn:E4; unfold_all;
    [|rewrite skipn_all2 by lia; split; [reflexivity|left; reflexivity]].
  rewrite skipn_trace. split; [reflexivity|right].
  unfold js_truthy in E1, E4.
  destruct (mget sid sr) as [r|]; [|discriminate].
  destruct (String.eqb r ""); [discriminate|]. injection E1 as ->.
  destruct (other_player room sid) as [o'|] eqn:E5; [|discriminate].
  destruct (String.eqb o' ""); [discriminate|]. injection E4 as ->.
  unfold other_player in E5. apply find_some in E5 as [Hin Hne].
  exists rid, room, o. rewrite E2, E3.
  repeat split; auto. intros ->. rewrite String.eqb_refl in Hne. discriminate.
Qed.

(** ** SEND_MESSAGE *)

(** When [dbService.createMessage] rejects, SEND_MESSAGE changes no server
    state: the room history, turn timers and everything else stay as they
    were; the only effects are possibly the failed database call and then an
    ERROR to the sender. *)
Theorem send_failure_changes_nothing (s : St) (sid text ts : string) :
  let s' := run (sendMessage sid text ts false) s in
  with_trace (trace s) s' = s
  /\ exists pre m, new_actions s s' = pre ++ [Emit sid (ERROR m)]
       /\ (pre = [] \/ exists rid b, pre = [DbCreateMessage rid b text sid]).
Proof.
  destruct s as [wp rms hp nl sr rt tt tms nh tr].
  unfold new_actions. split_all; repeat rewrite <- app_assoc; rewrite ?skipn_trace;
  cbn [app]; (split; [reflexivity|]);
  first [ exists []; eexists; split; [reflexivity|left; reflexivity]
        | eexists [_]; eexists; split; [reflexivity|right; eauto] ].
Qed.

(** A message relayed in a registered room is persisted with
    [isPlayer1 = true] exactly when the sender is listed first in the room,
    and appended at the end of the room's history; the other rooms' objects
    are untouched. *)
Theorem send_persists_role_and_history (s : St) (sid rid : string) (l : nat) (room : Room)
    (other text ts : string) :
  mget sid (socketRoom s) = Some rid -> rid <> "" ->
  mget rid (rooms s) = Some l -> mget l (heap s) = Some room ->
  sid <> "" -> In sid (players room) ->
  other_player room sid = Some other -> other <> "" ->
  let s' := run (sendMessage sid text ts true) s in
  (exists b rest, new_actions s s' = DbCreateMessage rid b text sid :: rest
     /\ (b = true <-> hd_error (players room) = Some sid))
  /\ (exists room', mget l (heap s') = Some room'
        /\ messages room' = messages room ++ [(text, ts)]
        /\ players room' = players room /\ isActive room' = isActive room)
  /\ (forall l', l' <> l -> mget l' (heap s') = mget l' (heap s)).
Proof.
  intros Hs Hr Hl Hroom Hsid Hin Ho Hne.
  destruct s as [wp rms hp nl sr rt tt tms nh tr]; proj_st.
  unfold new_actions. unfold_all.
  rewrite Hs, (js_truthy_some rid Hr), Hl, Hroom.
  rewrite (find_self sid _ Hin), Ho.
  rewrite (js_truthy_some sid Hsid), (js_truthy_some other Hne).
  repeat progress (unfold_all; rewrite ?Hl, ?Hroom, ?mget_mset_same).
  destruct (mget other tt) eqn:Htt; unfold_all;
  repeat rewrite <- app_assoc; rewrite skipn_trace; cbn [app];
  rewrite ?mget_mset_same.
  all: split; [do 2 eexists; split; [reflexivity|]|split; [eexists; split; [reflexivity|]|]].
  all: try (destruct (players room) as [|p0 ps]; [contradiction|]; cbn;
            destruct (String.eqb_spec p0 sid); split; congruence).
  all: try (cbn; repeat split; reflexivity).
  all: intros l' Hl'; apply mget_mset_other; exact Hl'.
Qed.

Lemma send_persists_role_and_history_witness :
  let s1 := run (sendMessage "A" "hi" "t1" true) s_match in
  exists b rest, new_actions s_match s1 = DbCreateMessage "r1" b "hi" "A" :: rest
     /\ (b = true <-> hd_error ["A"; "B"] = Some "A").
Proof.
  cbv zeta.
  destruct (mget 0 (heap s_match)) as [room|] eqn:E; [|discriminate].
  assert (Hp : players room = ["A"; "B"]) by (vm_compute in E; injection E as <-; reflexivity).
  rewrite <- Hp.
  eapply (proj1 (send_persists_role_and_history s_match "A" "r1" 0 room "B" "hi" "t1"
            eq_refl ltac:(discriminate) eq_refl E ltac:(discriminate)
            ltac:(rewrite Hp; cbn; tauto) ltac:(unfold other_player; rewrite Hp; reflexivity)
            ltac:(discriminate))).
Defined.

(** ** Disconnect and RETIRE *)

(** A disconnect from a registered room: the socket leaves the queue, the
    room countdown is cancelled and unregistered, the other player (if any)
    is told the opponent left, with the leaver's AI flag, and may guess; the
    room object is marked inactive and a five-second removal is scheduled.
    Turn timers are untouched.  When that removal fires, the room is gone
    from the registry. *)
Theorem disconnect_in_room (s : St) (sid rid : string) (l : nat) (room : Room) :
  mget sid (socketRoom s) = Some rid -> rid <> "" ->
  mget rid (rooms s) = Some l -> mget l (heap s) = Some room ->
  let s' := run (handleDisconnect sid) s in
  mget sid (waitingPlayers s') = None
  /\ room_at rid s' = Some (set_isActive false room)
  /\ mget rid (roomTimers s') = None
  /\ turnTimers s' = turnTimers s
  /\ mget (nextHandle s) (timers s') = Some (RemoveRoomOf sid)
  /\ new_actions s s' =
       match mget rid (roomTimers s) with Some h => [ClearTimer h] | None => [] end
       ++ match js_truthy (other_player room sid) with
          | Some o =>
              [Emit o (OPPONENT_DISCONNECTED "Your opponent has disconnected."
                         (mget sid (playerTypes room)));
               Emit o (YOUR_TURN false None (Some true))]
          | None => []
          end
       ++ [SetTimer (nextHandle s) 5000 (RemoveRoomOf sid)]
  /\ mget rid (rooms (run (fire (nextHandle s)) s')) = None.
Proof.
  intros Hs Hr Hl Hroom.
  destruct s as [wp rms hp nl sr rt tt tms nh tr]; proj_st.
  unfold new_actions, room_at. unfold_all.
  rewrite Hs, (js_truthy_some rid Hr), Hl, Hroom.
  destruct (mget rid rt) eqn:Hrt; unfold_all;
  destruct (js_truthy (other_player room sid)); unfold_all; rewrite ?Hroom;
  repeat rewrite <- app_assoc; rewrite ?skipn_trace; cbn [app];
  rewrite ?mget_mdel_same, ?Hl, ?mget_mset_same, ?(mdel_absent rid rt Hrt);
  cbn [mget keq KeyEq_nat]; rewrite ?Nat.eqb_refl; unfold_all; rewrite ?Hs;
  rewrite ?mget_mdel_same, ?Hrt; repeat split; reflexivity.
Qed.

Lemma disconnect_in_room_witness :
  let s1 := run (handleDisconnect "A") s_match in
  mget "r1" (rooms (run (fire (nextHandle s_match)) s1)) = None.
Proof.
  cbv zeta.
  destruct (mget 0 (heap s_match)) as [room|] eqn:E; [|discriminate].
  exact (proj2 (proj2 (proj2 (proj2 (proj2 (proj2
    (disconnect_in_room s_match "A" "r1" 0 room eq_refl ltac:(discriminate) eq_refl E))))))).
Defined.

(** RETIRE from a registered room notifies the other player (if any) that
    the opponent retired, with the retiree's AI flag, lets them guess, marks
    the room object inactive and schedules a five-second removal.  It leaves
    the queue, the room countdown (still registered in [roomTimers] and still
    live) and the turn timers untouched, since the room object carries no
    [roomTimer].  When the removal fires, the room is gone from the registry. *)
Theorem retire_in_room (s : St) (sid rid : string) (l : nat) (room : Room) :
  mget sid (socketRoom s) = Some rid -> rid <> "" ->
  mget rid (rooms s) = Some l -> mget l (heap s) = Some room ->
  roomTimer room = None ->
  let s' := run (retire sid) s in
  room_at rid s' = Some (set_isActive false room)
  /\ waitingPlayers s' = waitingPlayers s
  /\ roomTimers s' = roomTimers s /\ turnTimers s' = turnTimers s
  /\ timers s' = (nextHandle s, RemoveRoomOf sid) :: timers s
  /\ new_actions s s' =
       match js_truthy (other_player room sid) with
       | Some o =>
           [Emit o (OPPONENT_DISCONNECTED "Your opponent has retired from the game."
                      (mget sid (playerTypes room)));
            Emit o (YOUR_TURN false None (Some true))]
       | None => []
       end
       ++ [SetTimer (nextHandle s) 5000 (RemoveRoomOf sid)]
  /\ mget rid (rooms (run (fire (nextHandle s)) s')) = None.
Proof.
  intros Hs Hr Hl Hroom Hrt.
  destruct s as [wp rms hp nl sr rt tt tms nh tr]; proj_st.
  unfold new_actions, room_at. unfold_all.
  rewrite Hs, (js_truthy_some rid Hr), Hl, Hroom.
  destruct (js_truthy (other_player room sid)); unfold_all; rewrite ?Hrt; unfold_all;
  rewrite ?Hroom;
  repeat rewrite <- app_assoc; rewrite ?skipn_trace; cbn [app];
  rewrite ?Hl, ?mget_mset_same;
  cbn [mget keq KeyEq_nat]; rewrite ?Nat.eqb_refl; unfold_all; rewrite ?Hs;
  rewrite ?mget_mdel_same; repeat split; reflexivity.
Qed.

Lemma retire_in_room_witness :
  let s1 := run (retire "A") s_match in
  roomTimers s1 = roomTimers s_match
  /\ mget "r1" (rooms (run (fire (nextHandle s_match)) s1)) = None.
Proof.
  cbv zeta.
  destruct (mget 0 (heap s_match)) as [room|] eqn:E; [|discriminate].
  assert (Hrt : roomTimer room = None) by (vm_compute in E; injection E as <-; reflexivity).
  destruct (retire_in_room s_match "A" "r1" 0 room eq_refl ltac:(discriminate) eq_refl E Hrt)
    as (_ & _ & H1 & _ & _ & _ & H2).
  split; [exact H1|exact H2].
Defined.

(** ** The room countdown *)

(** [forEach] over callbacks that each emit one event to the player. *)
Lemma forEach_emits (l : list string) (f : string -> Event) (g : string -> M unit) (s : St) :
  (forall p s0, g p s0 = (tt, with_trace (trace s0 ++ [Emit p (f p)]) s0)) ->
  forEach l g s = (tt, with_trace (trace s ++ map (fun p => Emit p (f p)) l) s).
Proof.
  intros Hg. revert s. induction l as [|p l IH]; intros s.
  - rewrite app_nil_r. destruct s; reflexivity.
  - change (forEach (p :: l) g s) with (bind (g p) (fun _ => forEach l g) s).
    unfold bind. rewrite Hg, IH. destruct s. cbn. rewrite <- app_assoc. reflexivity.
Qed.

Ltac rw_emits :=
  repeat match goal with
  | |- context [forEach ?l ?g ?s] => erewrite (forEach_emits l _ g s) by (intros; reflexivity)
  end.



(** The last tick of the room countdown of an active room: every player gets
    the final TIME_UPDATE, the countdown is cancelled and unregistered, every
    player gets ROOM_TIME_UP, the room object is marked inactive and a
    five-second removal is scheduled; the room stays registered until that
    removal fires, which takes it out of the registry.  Turn timers are left
    as they are. *)
Theorem room_time_up (s : St) (h l : nat) (rid : string) (tl : Z) (room : Room) :
  mget h (timers s) = Some (RoomTick l rid tl) -> mget l (heap s) = Some room ->
  isActive room = true -> (tl <= 1)%Z -> (h < nextHandle s)%nat ->
  let s' := run (fire h) s in
  new_actions s s' =
    map (fun p => Emit p (TIME_UPDATE (tl - 1) (tl - 1 <=? 30)%Z)) (players room)
    ++ [ClearTimer h]
    ++ map (fun p => Emit p (ROOM_TIME_UP "Time's up! Make your guess about your opponent."))
           (players room)
    ++ [SetTimer (nextHandle s) 5000 (RemoveRoom rid)]
  /\ mget h (timers s') = None /\ mget rid (roomTimers s') = None
  /\ mget l (heap s') = Some (set_isActive false room)
  /\ rooms s' = rooms s /\ turnTimers s' = turnTimers s
  /\ mget rid (rooms (run (fire (nextHandle s)) s')) = None.
Proof.
  intros Ht Hroom Hact Htl Hh.
  destruct s as [wp rms hp nl sr rt tt tms nh tr]; proj_st.
  unfold new_actions. unfold_all. rewrite Ht, Hroom, Hact. cbn [negb].
  rw_emits. unfold_all.
  destruct (Z.leb_spec (tl - 1) 0); [|lia].
  rw_emits. unfold_all. rewrite Hroom. unfold_all.
  repeat rewrite <- app_assoc. rewrite skipn_trace.
  cbn [mget keq KeyEq_nat]. rewrite Nat.eqb_refl. unfold_all.
  rewrite ?mget_mdel_same, ?mget_mset_same.
  destruct (Nat.eqb_spec h nh); [lia|]. rewrite ?mget_mdel_same.
  repeat split; reflexivity.
Qed.

Lemma room_time_up_witness :
  mget "r1" (rooms (run (fire (nextHandle s_last)) (run (fire 0) s_last))) = None.
Proof.
  destruct (mget 0 (heap s_last)) as [room|] eqn:E; [|vm_compute in E; discriminate].
  exact (proj2 (proj2 (proj2 (proj2 (proj2 (proj2
    (room_time_up s_last 0 0 "r1" 1 room ltac:(vm_compute; reflexivity) E
       ltac:(vm_compute in E; injection E as <-; reflexivity) ltac:(lia)
       ltac:(vm_compute; lia)))))))).
Defined.



(** ** The turn countdown *)

(** The last tick of a turn countdown while its room is still registered:
    the player gets the final TURN_TIME_UPDATE (flagged low), the countdown
    is cancelled and unregistered, the player gets TURN_TIME_UP, then the
    forfeit: the room countdown is cancelled and unregistered, the player
    gets FORFEIT_RESULT and the other player (if any) OPPONENT_FORFEIT.  The
    room itself is neither marked inactive nor scheduled for removal. *)
Theorem turn_time_up_forfeit (s : St) (h : nat) (rid pid : string) (tl : Z) (l : nat)
    (room : Room) :
  mget h (timers s) = Some (TurnTick rid pid tl) -> (tl <= 1)%Z ->
  mget rid (rooms s) = Some l -> mget l (heap s) = Some room ->
  let s' := run (fire h) s in
  new_actions s s' =
    [Emit pid (TURN_TIME_UPDATE (tl - 1) true); ClearTimer h; Emit pid TURN_TIME_UP]
    ++ match mget rid (roomTimers s) with Some k => [ClearTimer k] | None => [] end
    ++ [Emit pid (FORFEIT_RESULT "You've lost your turn due to time running out.")]
    ++ match js_truthy (other_player room pid) with
       | Some o => [Emit o OPPONENT_FORFEIT]
       | None => []
       end
  /\ rooms s' = rooms s /\ heap s' = heap s /\ nextHandle s' = nextHandle s
  /\ mget rid (roomTimers s') = None /\ mget pid (turnTimers s') = None
  /\ mget h (timers s') = None.
Proof.
  intros Ht Htl Hl Hroom.
  destruct s as [wp rms hp nl sr rt tt tms nh tr]; proj_st.
  unfold new_actions. unfold_all. rewrite Ht.
  destruct (Z.leb_spec (tl - 1) 5); [|lia].
  destruct (Z.leb_spec (tl - 1) 0); [|lia].
  unfold_all. rewrite Hl, Hroom. unfold_all.
  destruct (mget rid rt) as [k|] eqn:Hrt; unfold_all;
  destruct (js_truthy (other_player room pid)); unfold_all;
  repeat rewrite <- app_assoc; rewrite skipn_trace; cbn [app];
  rewrite ?mget_mdel_same, ?(mdel_absent rid rt Hrt), ?Hrt;
  get_simpl; repeat split; reflexivity.
Qed.

Lemma turn_time_up_forfeit_witness :
  rooms (run (fire 1) s_turn_last) = rooms s_turn_last
  /\ heap (run (fire 1) s_turn_last) = heap s_turn_last.
Proof.
  destruct (mget 0 (heap s_turn_last)) as [room|] eqn:E; [|vm_compute in E; discriminate].
  destruct (turn_time_up_forfeit s_turn_last 1 "r1" "B" 1 0 room
              ltac:(vm_compute; reflexivity) ltac:(lia) ltac:(vm_compute; reflexivity) E)
    as (_ & H1 & H2 & _).
  split; [exact H1|exact H2].
Defined.

(** ** Joining matchmaking *)

(** A socket outside any room joining an empty queue is queued with its AI
    draw and told to wait; nothing else changes. *)
Theorem join_empty_queue_waits (s : St) (sid : string) (a : bool) (rid : string) (f : bool)
    (now : Z) (conv : option string) :
  mget sid (socketRoom s) = None -> waitingPlayers s = [] ->
  let s' := run (handleMatchmaking sid a rid f now conv) s in
  s' = with_trace (trace s ++ [Emit sid (WAITING_FOR_PLAYER "Waiting for another player to join...")])
         (with_wp [(sid, a)] s).
Proof.
  intros Hsr Hwp.
  destruct s as [wp rms hp nl sr rt tt tms nh tr]; proj_st. subst wp.
  unfold_all. rewrite Hsr. reflexivity.
Qed.

Lemma join_empty_queue_waits_witness :
  run_ops [OpJoin "A" true "r0" true 0 None] init
  = with_trace [Emit "A" (WAITING_FOR_PLAYER "Waiting for another player to join...")]
      (with_wp [("A", true)] init).
Proof.
  exact (join_empty_queue_waits init "A" true "r0" true 0 None eq_refl eq_refl).
Defined.

(** A socket outside any room joining while another player [p0] waits, the
    conversation being created: a room [rid] is registered with the two
    players in queue order, an empty history, both AI draws and
    [isActive = true]; both sockets are bound to it and leave the queue;
    each gets MATCH_FOUND with the room id, the conversation id, its own AI
    draw, complementary [isFirstTurn] flags and the 120000 ms limit; then a
    fresh room countdown of 120 seconds is started and registered (replacing
    one registered under the same id, if any). *)
Theorem match_created (s : St) (sid p0 : string) (a0 a : bool) (rid : string) (f : bool)
    (now : Z) (conv : option string) (cid : string) :
  mget sid (socketRoom s) = None -> waitingPlayers s = [(p0, a0)] -> p0 <> sid ->
  js_truthy conv = Some cid ->
  let s' := run (handleMatchmaking sid a rid f now conv) s in
  new_actions s s' =
    [DbCreateConversation rid p0 sid a0 a;
     Emit p0 (MATCH_FOUND rid cid a0 f ROOM_TIME_LIMIT);
     Emit sid (MATCH_FOUND rid cid a (negb f) ROOM_TIME_LIMIT)]
    ++ match mget rid (roomTimers s) with Some h => [ClearTimer h] | None => [] end
    ++ [SetTimer (nextHandle s) 1000 (RoomTick (nextLoc s) rid 120)]
  /\ waitingPlayers s' = []
  /\ mget p0 (socketRoom s') = Some rid /\ mget sid (socketRoom s') = Some rid
  /\ room_at rid s' = Some (mkRoom [p0; sid] [] f [(p0, a0); (sid, a)] true now None None None)
  /\ mget rid (roomTimers s') = Some (nextHandle s).
Proof.
  intros Hsr Hwp Hne Hc.
  destruct s as [wp rms hp nl sr rt tt tms nh tr]; proj_st. subst wp.
  unfold new_actions, room_at. unfold_all. rewrite Hsr.
  change (js_truthy None) with (@None string). unfold_all.
  replace (mhas sid [(p0, a0)]) with false
    by (unfold mhas; cbn; destruct (String.eqb_spec sid p0); congruence).
  unfold_all.
  replace (mset sid a [(p0, a0)]) with [(p0, a0); (sid, a)]
    by (cbn; destruct (String.eqb_spec sid p0); congruence).
  cbn [length Nat.leb firstn]. unfold_all. rewrite Hc.
  cbv beta delta [forEach fold_right]. unfold_all.
  rewrite mget_mset_same. cbn [mget keq KeyEq_nat]. rewrite Nat.eqb_refl. unfold_all.
  destruct (mget rid rt) eqn:Hrt; unfold_all;
  repeat rewrite <- app_assoc; rewrite skipn_trace; cbn [app];
  (split; [reflexivity|]);
  (split; [unfold mdel; cbn; rewrite String.eqb_refl;
           destruct (String.eqb_spec p0 sid); [congruence|]; cbn;
           rewrite String.eqb_refl; reflexivity|]);
  rewrite ?mget_mset_same, mget_mset_other, mget_mset_same by congruence;
  rewrite ?mget_mset_same; cbn [mget keq KeyEq_nat]; rewrite ?Nat.eqb_refl;
  repeat split; reflexivity.
Qed.

Lemma match_created_witness :
  room_at "r1" (run (handleMatchmaking "B" false "r1" true 1 (Some "c1")) s_waitA)
  = Some (mkRoom ["A"; "B"] [] true [("A", true); ("B", false)] true 1 None None None).
Proof.
  exact (proj1 (proj2 (proj2 (proj2 (proj2
    (match_created s_waitA "B" "A" true false "r1" true 1 (Some "c1") "c1"
       ltac:(vm_compute; reflexivity) ltac:(vm_compute; reflexivity)
       ltac:(discriminate) ltac:(vm_compute; reflexivity))))))).
Defined.

(** ** What the socket handlers never do *)

(** No socket event removes a room from the registry: only the timer
    callbacks do.  (A match may re-register an id drawn again by
    [generateRoomId], hence a possibly different object.) *)
Theorem socket_events_keep_rooms (op : Op) (s : St) (rid : string) (l : nat) :
  (forall h, op <> OpFire h) -> mget rid (rooms s) = Some l ->
  exists l', mget rid (rooms (run (step op) s)) = Some l'.
Proof.
  intros Hop Hl.
  destruct s as [wp rms hp nl sr rt tt tms nh tr]; proj_st.
  destruct op; [| | | | | | |exfalso; eapply Hop; reflexivity];
  split_all; proj_st; get_simpl; eauto.
Qed.

Lemma socket_events_keep_rooms_witness :
  exists l', mget "r1" (rooms (run (step (OpDisconnect "A")) s_match)) = Some l'.
Proof.
  exact (socket_events_keep_rooms (OpDisconnect "A") s_match "r1" 0
           ltac:(intros h E; discriminate) ltac:(vm_compute; reflexivity)).
Defined.

(** Room objects are never freed and their player list never changes, and
    no operation (socket event or timer) ever turns an inactive room back to
    active. *)
Theorem room_objects_persist (op : Op) (s : St) (l : nat) (r : Room) :
  (l < nextLoc s)%nat -> mget l (heap s) = Some r ->
  exists r', mget l (heap (run (step op) s)) = Some r'
    /\ players r' = players r /\ (isActive r = false -> isActive r' = false).
Proof.
  intros Hfresh Hr.
  destruct s as [wp rms hp nl sr rt tt tms nh tr]; proj_st.
  destruct op; split_all; proj_st; get_simpl.
  all: try (exfalso; lia).
  all: eexists; (split; [first [eassumption | reflexivity] |]).
  all: rewrite ?mget_mset_same in *.
  all: repeat match goal with H : Some _ = Some _ |- _ => injection H as H; subst end.
  all: repeat match goal with
            | H1 : mget ?k ?m = Some ?a, H2 : mget ?k ?m = Some ?b |- _ =>
                tryif constr_eq a b then fail
                else (assert (a = b) by congruence; subst) end.
  all: cbn; split; [reflexivity|auto].
Qed.

Lemma room_objects_persist_witness :
  exists r', mget 0 (heap (run (step (OpSend "B" "hi" "t1" true)) (run (retire "A") s_match)))
             = Some r' /\ isActive r' = false.
Proof.
  destruct (mget 0 (heap (run (retire "A") s_match))) as [r|] eqn:E;
    [|vm_compute in E; discriminate].
  destruct (room_objects_persist (OpSend "B" "hi" "t1" true) (run (retire "A") s_match) 0 r
              ltac:(vm_compute; lia) E) as (r' & H1 & _ & H2).
  exists r'. split; [exact H1|]. apply H2.
  vm_compute in E. injection E as <-. reflexivity.
Defined.

(** ** The timer bookkeeping *)

Lemma mget_cons_same {K V} `{KeyEq K} (k : K) (v : V) (m : list (K * V)) :
  mget k ((k, v) :: m) = Some v.
Proof. cbn. rewrite keq_refl. reflexivity. Qed.

Lemma mget_cons_other {K V} `{KeyEq K} (k k' : K) (v : V) (m : list (K * V)) :
  k <> k' -> mget k ((k', v) :: m) = mget k m.
Proof. intro Hne. cbn. destruct (keq_spec k k'); [contradiction|reflexivity]. Qed.

Ltac eq_case E := first [subst | rewrite E in *].

(** Resolve every lookup in an updated map, in the goal and the hypotheses. *)
Ltac simp_maps :=
  repeat first
  [ progress rewrite ?mget_mdel_same, ?mget_mset_same, ?mget_cons_same in *
  | match goal with
    | H : Some _ = Some _ |- _ => injection H as H; try subst
    | H : None = Some _ |- _ => discriminate H
    | H : Some _ = None |- _ => discriminate H
    | H : context [mget ?k (mdel ?k' ?m)] |- _ =>
        let E := fresh in destruct (keq_spec k k') as [E|E];
        [eq_case E | rewrite (mget_mdel_other k k' m E) in H]
    | H : context [mget ?k (mset ?k' ?v ?m)] |- _ =>
        let E := fresh in destruct (keq_spec k k') as [E|E];
        [eq_case E | rewrite (mget_mset_other k k' v m E) in H]
    | H : context [mget ?k ((?k', ?v) :: ?m)] |- _ =>
        let E := fresh in destruct (keq_spec k k') as [E|E];
        [eq_case E | rewrite (mget_cons_other k k' v m E) in H]
    | |- context [mget ?k (mdel ?k' ?m)] =>
        let E := fresh in destruct (keq_spec k k') as [E|E];
        [eq_case E | rewrite (mget_mdel_other k k' m E)]
    | |- context [mget ?k (mset ?k' ?v ?m)] =>
        let E := fresh in destruct (keq_spec k k') as [E|E];
        [eq_case E | rewrite (mget_mset_other k k' v m E)]
    | |- context [mget ?k ((?k', ?v) :: ?m)] =>
        let E := fresh in destruct (keq_spec k k') as [E|E];
        [eq_case E | rewrite (mget_cons_other k k' v m E)]
    end ].

Lemma step_timer_wf (op : Op) (s : St) : TimerWF s -> TimerWF (run (step op) s).
Proof.
  intros [[I1 I2 I3 I5 I4] I6 I7].
  destruct s as [wp rms hp nl sr rt tt tms nh tr]; proj_st.
  destruct op; split_all; proj_st.
  all: constructor; [constructor|..]; intros; proj_st.
  all: try intro; simp_maps.
  all: repeat match goal with
    | H : mget ?k _ = Some ?t |- _ =>
        lazymatch type of t with Task => idtac end;
        lazymatch goal with _ : k < _ |- _ => fail | _ => pose proof (I1 k t H) end
    | H : mget ?r _ = Some ?k |- _ =>
        lazymatch type of k with nat => idtac end;
        lazymatch goal with _ : k < _ |- _ => fail
        | _ => first [pose proof (I6 r k H) | pose proof (I7 r k H)] end
    | H : mget ?k _ = Some (TurnTick ?rid ?q ?tl) |- _ =>
        lazymatch goal with _ : mget q _ = Some k |- _ => fail
        | _ => pose proof (I3 k rid q tl H) end
    end.
  all: try solve [lia | congruence | eauto | do 2 eexists; reflexivity
    | exfalso; eapply I2; eassumption
    | match goal with
      | H : mget ?q _ = Some ?k, H' : mget ?k _ = Some ?t |- _ =>
          let rid := fresh in let tl := fresh in let E := fresh in
          destruct (I5 q k t H H') as (rid & tl & E); discriminate E
      end].
  all: try solve [unfold push_message, set_isActive; cbn; eauto].
  all: match goal with
    | H : mget ?q _ = Some ?k, H' : mget ?k _ = Some ?t |- _ =>
        let E := fresh in
        destruct (I5 q k t H H') as (? & ? & E); injection E as <- <- <-; eauto
    end.
Qed.

(** In every state reachable from [init], the timer bookkeeping is
    consistent: every scheduled handle was issued, a room countdown handle
    never runs a turn countdown, each pending turn countdown is the one
    [turnTimers] keeps for its player (and only such countdowns are kept
    there), and no room object stores its own timer. *)
Theorem timer_inv_reachable (ops : list Op) : TimerInv (run_ops ops init).
Proof.
  apply wf_inv.
  apply (run_ops_preserves TimerWF).
  - exact step_timer_wf.
  - repeat constructor; cbn; intros; discriminate.
Qed.

(** ** Turn countdown ticks *)

(** A tick of a turn countdown with more than one second left only tells its
    player the new time left (flagged low at 5 seconds or less) and keeps the
    countdown running with one second less; it does not look at the room,
    which may be inactive or removed. *)
Theorem turn_tick (s : St) (h : nat) (rid pid : string) (tl : Z) :
  mget h (timers s) = Some (TurnTick rid pid tl) -> (1 < tl)%Z ->
  run (fire h) s =
  with_trace (trace s ++ [Emit pid (TURN_TIME_UPDATE (tl - 1) (tl - 1 <=? 5)%Z)])
    (with_timers (mset h (TurnTick rid pid (tl - 1)) (timers s)) (nextHandle s) s).
Proof.
  intros Ht Htl.
  destruct s as [wp rms hp nl sr rt tt tms nh tr]; proj_st.
  unfold_all. rewrite Ht. unfold_all.
  destruct (Z.leb_spec (tl - 1) 0); [lia|].
  reflexivity.
Qed.

Lemma turn_tick_witness :
  let s := run (step (OpSend "A" "hi" "t0" true)) s_match in
  mget 1 (timers s) = Some (TurnTick "r1" "B" 900) /\ (1 < 900)%Z /\
  run (fire 1) s =
  with_trace (trace s ++ [Emit "B" (TURN_TIME_UPDATE (900 - 1) (900 - 1 <=? 5)%Z)])
    (with_timers (mset 1 (TurnTick "r1" "B" (900 - 1)) (timers s)) (nextHandle s) s).
Proof.
  intro s. split; [vm_compute; reflexivity|]. split; [lia|].
  apply turn_tick; [vm_compute; reflexivity | lia].
Defined.
